(** * Mood aggregation engine of the Zenora wellness application

  A shallow embedding of the mood logic that lives inside the screens
  [Zenora.tsx], [Insights.tsx], [Dashboard.tsx] and [MoodContext.tsx],
  followed by the properties stated about it.

  Conventions of the embedding:
  - a JavaScript string is a [string] (a sequence of bytes; ASCII text is
    itself, an emoji is its UTF-8 bytes);
  - a JavaScript number that the code only ever uses as an integer is a
    [Z]; the places where the code divides ([calculateAverageMood] and
    the rescaling of the score in [updateFromStorage]) are carried out in
    exact rational arithmetic ([Q]);
  - [localStorage] is a finite map from keys to strings;
  - a statement that can throw returns a [Completion];
  - a calendar day is its day number ([Z]) where the code walks the
    calendar, and its ISO text where the code only compares for equality. *)

From Stdlib Require Import ZArith QArith Qround Qabs String Ascii List Lia Bool.
From Stdlib Require Import Sorted.
From Stdlib Require Import Decimal DecimalString DecimalN DecimalPos.
From stdpp Require Import base option gmap strings list fin_maps.

Set Warnings "-register-all".
Local Open Scope Z_scope.

(** ** JavaScript strings *)

Module JsString.

(** [String.prototype.toLowerCase] on the ASCII range: the letters
    [A]..[Z] are moved to [a]..[z], every other byte is kept. *)
Definition lower_ascii (c : ascii) : ascii :=
  let n := N_of_ascii c in
  if ((65 <=? n) && (n <=? 90))%N then ascii_of_N (n + 32) else c.

Definition upper_ascii (c : ascii) : ascii :=
  let n := N_of_ascii c in
  if ((97 <=? n) && (n <=? 122))%N then ascii_of_N (n - 32) else c.

Fixpoint toLowerCase (s : string) : string :=
  match s with
  | EmptyString => EmptyString
  | String c s' => String (lower_ascii c) (toLowerCase s')
  end.

Fixpoint toUpperCase (s : string) : string :=
  match s with
  | EmptyString => EmptyString
  | String c s' => String (upper_ascii c) (toUpperCase s')
  end.

(** [k] is a prefix of [s]. *)
Fixpoint startsWith (s k : string) {struct k} : bool :=
  match k, s with
  | EmptyString, _ => true
  | String a k', String b s' => if Ascii.eqb a b then startsWith s' k' else false
  | String _ _, EmptyString => false
  end.

(** [String.prototype.includes]: [k] occurs in [s] at some position. *)
Fixpoint includes (s k : string) : bool :=
  startsWith s k ||
  match s with
  | EmptyString => false
  | String _ s' => includes s' k
  end.

(** [s.charAt(0)] and [s.slice(1)]. *)
Definition charAt0 (s : string) : string :=
  match s with
  | EmptyString => EmptyString
  | String c _ => String c EmptyString
  end.

Definition slice1 (s : string) : string :=
  match s with
  | EmptyString => EmptyString
  | String _ s' => s'
  end.

(** A JavaScript string is truthy when it is not empty. *)
Definition truthy (s : string) : bool :=
  match s with
  | EmptyString => false
  | String _ _ => true
  end.

(** [s || fallback] on strings. *)
Definition orElse (s fallback : string) : string :=
  if truthy s then s else fallback.

(** The text that follows a prefix of [n] characters. *)
Fixpoint dropChars (n : nat) (s : string) : string :=
  match n, s with
  | S n', String _ s' => dropChars n' s'
  | _, _ => s
  end.

End JsString.

(** ** Outcomes of statements *)

Inductive JsError := SyntaxError | TypeError.

(** A statement completes normally with a value, throws, or leaves the
  typed embedding because a value read back from storage does not inhabit
  the TypeScript type the code asserts for it. *)
Inductive Completion (A : Type) :=
| Normal (a : A)
| Throw (e : JsError)
| OutOfModel.
Arguments Normal {A} a.
Arguments Throw {A} e.
Arguments OutOfModel {A}.

Definition bindC {A B} (c : Completion A) (k : A -> Completion B) : Completion B :=
match c with
| Normal a => k a
| Throw e => Throw e
| OutOfModel => OutOfModel
end.

(** [try { body } catch { handler }]. *)
Definition tryCatch {A} (body : Completion A) (handler : JsError -> Completion A)
: Completion A :=
match body with
| Throw e => handler e
| other => other
end.

(** ** JSON *)

Module Json.
Import JsString.

(** A model of the [JSON] object of the platform, as far as the screens
    use it. Numbers are the integers in plain decimal notation, which is
    what the stored scores are; a text that writes a number with a
    fraction or an exponent is not read and counts as malformed. An
    object keeps its members in textual order. A [\uXXXX] escape is read
    as the UTF-8 bytes of that one code unit. *)
Inductive JSValue :=
| JNull
| JBool (b : bool)
| JNumber (n : Z)
| JString (s : string)
| JArray (items : list JSValue)
| JObject (fields : list (string * JSValue)).

(** Character codes of the JSON punctuation. *)
Definition code (c : ascii) : N := N_of_ascii c.
Definition chr (n : N) : ascii := ascii_of_N n.
Definition QUOTE : N := 34.
Definition BACKSLASH : N := 92.
Definition COMMA : N := 44.
Definition COLON : N := 58.
Definition LBRACKET : N := 91.
Definition RBRACKET : N := 93.
Definition LBRACE : N := 123.
Definition RBRACE : N := 125.
Definition MINUS : N := 45.

Definition str1 (n : N) : string := String (chr n) EmptyString.

(** *** JSON.stringify *)

Definition hexDigit (n : N) : ascii :=
  if (n <? 10)%N then chr (48 + n) else chr (87 + n).

(** QuoteJSONString: the two-character escapes, [\u00xx] for the other
    control characters, every other character as it is. *)
Definition escapeChar (c : ascii) : string :=
  let n := code c in
  if (n =? QUOTE)%N then String (chr BACKSLASH) (str1 QUOTE)
  else if (n =? BACKSLASH)%N then String (chr BACKSLASH) (str1 BACKSLASH)
  else if (n =? 8)%N then String (chr BACKSLASH) "b"
  else if (n =? 12)%N then String (chr BACKSLASH) "f"
  else if (n =? 10)%N then String (chr BACKSLASH) "n"
  else if (n =? 13)%N then String (chr BACKSLASH) "r"
  else if (n =? 9)%N then String (chr BACKSLASH) "t"
  else if (n <? 32)%N then
    String (chr BACKSLASH)
      ("u00" +:+ String (hexDigit (n / 16)) (String (hexDigit (n mod 16)) EmptyString))
  else String c EmptyString.

Fixpoint escape (s : string) : string :=
  match s with
  | EmptyString => EmptyString
  | String c s' => escapeChar c +:+ escape s'
  end.

Definition quote (s : string) : string :=
  String (chr QUOTE) (escape s +:+ str1 QUOTE).

Definition numberText (n : Z) : string :=
  (if n <? 0 then "-" else EmptyString) +:+ NilZero.string_of_uint (N.to_uint (Z.abs_N n)).

(** The texts of the elements of an array or of the members of an
    object, separated by commas and followed by the closing bracket. *)
Fixpoint closeList (close : N) (texts : list string) : string :=
  match texts with
  | [] => str1 close
  | t :: rest =>
      t +:+ match rest with
            | [] => str1 close
            | _ :: _ => String (chr COMMA) (closeList close rest)
            end
  end.

Fixpoint stringify (v : JSValue) : string :=
  match v with
  | JNull => "null"
  | JBool true => "true"
  | JBool false => "false"
  | JNumber n => numberText n
  | JString s => quote s
  | JArray items =>
      String (chr LBRACKET) (closeList RBRACKET (map stringify items))
  | JObject fields =>
      String (chr LBRACE)
        (closeList RBRACE
           (map (fun kv => quote (fst kv) +:+ String (chr COLON) (stringify (snd kv)))
                fields))
  end.

(** The number of values, elements and members of a value: a bound on
    the depth of the calls that read it back. *)
Fixpoint size (v : JSValue) : nat :=
  match v with
  | JArray items => S (list_sum (map (fun x => S (size x)) items))
  | JObject fields => S (list_sum (map (fun kv => S (size (snd kv))) fields))
  | _ => 1
  end.

Definition memberText (kv : string * JSValue) : string :=
  quote (fst kv) +:+ String (chr COLON) (stringify (snd kv)).

Definition sizeItems (items : list JSValue) : nat :=
  list_sum (map (fun x => S (size x)) items).

Definition sizeFields (fields : list (string * JSValue)) : nat :=
  list_sum (map (fun kv => S (size (snd kv))) fields).

(** *** JSON.parse *)

Definition isWs (c : ascii) : bool :=
  let n := code c in ((n =? 32) || (n =? 9) || (n =? 10) || (n =? 13))%N.

Fixpoint skipWs (s : string) : string :=
  match s with
  | String c s' => if isWs c then skipWs s' else s
  | EmptyString => s
  end.

Definition hexValue (c : ascii) : option N :=
  let n := code c in
  if ((48 <=? n) && (n <=? 57))%N then Some (n - 48)%N
  else if ((97 <=? n) && (n <=? 102))%N then Some (n - 87)%N
  else if ((65 <=? n) && (n <=? 70))%N then Some (n - 55)%N
  else None.

Definition hex4 (a b c d : ascii) : option N :=
  match hexValue a, hexValue b, hexValue c, hexValue d with
  | Some x, Some y, Some z, Some w => Some (((x * 16 + y) * 16 + z) * 16 + w)%N
  | _, _, _, _ => None
  end.

(** The UTF-8 bytes of a code unit given by a [\uXXXX] escape. *)
Definition utf8 (u : N) : string :=
  if (u <? 128)%N then str1 u
  else if (u <? 2048)%N then
    String (chr (192 + u / 64)) (str1 (128 + u mod 64))
  else
    String (chr (224 + u / 4096))
      (String (chr (128 + (u / 64) mod 64)) (str1 (128 + u mod 64))).

Definition unescape (n : N) : option ascii :=
  if (n =? QUOTE)%N then Some (chr QUOTE)
  else if (n =? BACKSLASH)%N then Some (chr BACKSLASH)
  else if (n =? 47)%N then Some (chr 47)
  else if (n =? 98)%N then Some (chr 8)
  else if (n =? 102)%N then Some (chr 12)
  else if (n =? 110)%N then Some (chr 10)
  else if (n =? 114)%N then Some (chr 13)
  else if (n =? 116)%N then Some (chr 9)
  else None.

(** The characters of a string literal, read after its opening quote up
    to and including the closing quote. *)
Fixpoint parseChars (s : string) : option (string * string) :=
  match s with
  | EmptyString => None
  | String c rest =>
      if (code c =? QUOTE)%N then Some (EmptyString, rest)
      else if (code c =? BACKSLASH)%N then
        match rest with
        | EmptyString => None
        | String e rest' =>
            if (code e =? 117)%N then
              match rest' with
              | String h1 (String h2 (String h3 (String h4 rest''))) =>
                  match hex4 h1 h2 h3 h4, parseChars rest'' with
                  | Some u, Some (t, r) => Some (utf8 u +:+ t, r)
                  | _, _ => None
                  end
              | _ => None
              end
            else
              match unescape (code e), parseChars rest' with
              | Some ch, Some (t, r) => Some (String ch t, r)
              | _, _ => None
              end
        end
      else if (code c <? 32)%N then None
      else
        match parseChars rest with
        | Some (t, r) => Some (String c t, r)
        | None => None
        end
  end.

Definition isDigit (c : ascii) : bool :=
  ((48 <=? code c) && (code c <=? 57))%N.

Fixpoint spanDigits (s : string) : string * string :=
  match s with
  | String c s' =>
      if isDigit c then
        let (ds, rest) := spanDigits s' in (String c ds, rest)
      else (EmptyString, s)
  | EmptyString => (EmptyString, EmptyString)
  end.

(** The digits of a JSON number in plain integer notation, without a
    superfluous leading zero. A fraction or an exponent is not read: the
    text that carries one is rejected by whatever comes next, so such
    numbers lie outside the embedding. *)
Definition readDigits (negative : bool) (s : string) : option (Z * string) :=
  let (ds, rest) := spanDigits s in
  match ds with
  | EmptyString => None
  | String d more =>
      if (code d =? 48)%N && truthy more then None
      else
        match NilZero.uint_of_string ds with
        | Some u =>
            let n := Z.of_N (N.of_uint u) in
            Some (if negative then - n else n, rest)
        | None => None
        end
  end.

(** A number: an optional minus sign and its digits. *)
Definition parseNumber (s : string) : option (Z * string) :=
  match s with
  | String c s' =>
      if (code c =? MINUS)%N then readDigits true s' else readDigits false s
  | EmptyString => None
  end.

(** A text after which a number ends: it does not go on with a digit. *)
Definition endsNumber (rest : string) : bool :=
  match rest with
  | EmptyString => true
  | String c _ => negb (isDigit c)
  end.

Fixpoint parseValue (fuel : nat) (s : string) : option (JSValue * string) :=
  match fuel with
  | O => None
  | S fuel' =>
      match skipWs s with
      | EmptyString => None
      | String c rest as s0 =>
          if (code c =? QUOTE)%N then
            match parseChars rest with
            | Some (t, r) => Some (JString t, r)
            | None => None
            end
          else if (code c =? LBRACKET)%N then
            match skipWs rest with
            | EmptyString => None
            | String c' r' =>
                if (code c' =? RBRACKET)%N then Some (JArray [], r')
                else
                  match parseElements fuel' rest with
                  | Some (vs, r) => Some (JArray vs, r)
                  | None => None
                  end
            end
          else if (code c =? LBRACE)%N then
            match skipWs rest with
            | EmptyString => None
            | String c' r' =>
                if (code c' =? RBRACE)%N then Some (JObject [], r')
                else
                  match parseMembers fuel' rest with
                  | Some (ms, r) => Some (JObject ms, r)
                  | None => None
                  end
            end
          else if startsWith s0 "null" then Some (JNull, dropChars 4 s0)
          else if startsWith s0 "true" then Some (JBool true, dropChars 4 s0)
          else if startsWith s0 "false" then Some (JBool false, dropChars 5 s0)
          else
            match parseNumber s0 with
            | Some (n, r) => Some (JNumber n, r)
            | None => None
            end
      end
  end
with parseElements (fuel : nat) (s : string) : option (list JSValue * string) :=
  match fuel with
  | O => None
  | S fuel' =>
      match parseValue fuel' s with
      | Some (v, r) =>
          match skipWs r with
          | EmptyString => None
          | String c r' =>
              if (code c =? COMMA)%N then
                match parseElements fuel' r' with
                | Some (vs, r'') => Some (v :: vs, r'')
                | None => None
                end
              else if (code c =? RBRACKET)%N then Some ([v], r')
              else None
          end
      | None => None
      end
  end
with parseMembers (fuel : nat) (s : string)
  : option (list (string * JSValue) * string) :=
  match fuel with
  | O => None
  | S fuel' =>
      match skipWs s with
      | EmptyString => None
      | String c r0 =>
          if (code c =? QUOTE)%N then
            match parseChars r0 with
            | Some (k, r1) =>
                match skipWs r1 with
                | EmptyString => None
                | String c1 r2 =>
                    if (code c1 =? COLON)%N then
                      match parseValue fuel' r2 with
                      | Some (v, r3) =>
                          match skipWs r3 with
                          | EmptyString => None
                          | String c3 r4 =>
                              if (code c3 =? COMMA)%N then
                                match parseMembers fuel' r4 with
                                | Some (ms, r5) => Some ((k, v) :: ms, r5)
                                | None => None
                                end
                              else if (code c3 =? RBRACE)%N then Some ([(k, v)], r4)
                              else None
                          end
                      | None => None
                      end
                    else None
                end
            | None => None
            end
          else None
      end
  end.

(** [JSON.parse]: one value, surrounded by optional white space, and
    nothing else; anything else is a [SyntaxError]. Every call of the
    parser consumes a character before it recurses twice, so the length
    of the text bounds the recursion. *)
Definition parse (text : string) : Completion JSValue :=
  match parseValue (S (String.length text)) text with
  | Some (v, rest) =>
      match skipWs rest with
      | EmptyString => Normal v
      | String _ _ => Throw SyntaxError
      end
  | None => Throw SyntaxError
  end.

(** Property lookup on the members of an object: a later member of the
    same name overrides an earlier one. *)
Fixpoint getProp (k : string) (fields : list (string * JSValue)) : option JSValue :=
  match fields with
  | [] => None
  | (k', v) :: rest =>
      match getProp k rest with
      | Some v' => Some v'
      | None => if String.eqb k k' then Some v else None
      end
  end.

End Json.

(** ** localStorage *)

Abbreviation Storage := (gmap string string).

Module LocalStorage.
Definition getItem (ls : Storage) (key : string) : option string := ls !! key.
Definition setItem (ls : Storage) (key value : string) : Storage := <[key := value]> ls.
Definition removeItem (ls : Storage) (key : string) : Storage := delete key ls.
End LocalStorage.

(** ** Zenora.tsx: the chat screen *)

Module Zenora.
Import JsString Json LocalStorage.

(** *** The local classifier *)

(** The object literal returned by [analyzeLocalMood]. *)
Record LocalMood := mkLocalMood {
  emoji : string;
  mood : string;
  score : Z
}.

Definition Sad := mkLocalMood "😔" "Sad" 45.
Definition Angry := mkLocalMood "😡" "Angry" 35.
Definition Happy := mkLocalMood "😊" "Happy" 85.
Definition Anxious := mkLocalMood "😰" "Anxious" 55.
Definition Calm := mkLocalMood "😌" "Calm" 80.
Definition Neutral := mkLocalMood "🙂" "Neutral" 70.

Definition analyzeLocalMood (message : string) : LocalMood :=
  let lower := toLowerCase message in
  if includes lower "sad" || includes lower "tired" || includes lower "upset"
  then Sad
  else if includes lower "angry" || includes lower "mad"
  then Angry
  else if includes lower "happy" || includes lower "great" || includes lower "good"
  then Happy
  else if includes lower "anxious" || includes lower "worried"
  then Anxious
  else if includes lower "relax" || includes lower "calm"
  then Calm
  else Neutral.

(** The classifier read as an ordered rule table: each rule is a set of
    trigger keywords and the outcome it produces. *)
Record Rule := mkRule {
  keywords : list string;
  outcome : LocalMood
}.

Definition ruleTable : list Rule :=
  [ mkRule ["sad"; "tired"; "upset"] Sad;
    mkRule ["angry"; "mad"] Angry;
    mkRule ["happy"; "great"; "good"] Happy;
    mkRule ["anxious"; "worried"] Anxious;
    mkRule ["relax"; "calm"] Calm ].

(** A rule fires on a text when any of its keywords occurs in it. *)
Definition fires (lower : string) (r : Rule) : bool :=
  existsb (includes lower) (keywords r).

(** First firing rule wins; no rule firing gives the fallback. *)
Fixpoint firstMatch (rules : list Rule) (lower : string) : LocalMood :=
  match rules with
  | [] => Neutral
  | r :: rest => if fires lower r then outcome r else firstMatch rest lower
  end.

Definition classify (text : string) : LocalMood :=
  firstMatch ruleTable (toLowerCase text).

(** *** The mood tracker state and its persistence *)

Record MoodData := mkMoodData {
  moodScore : Z;
  todayMood : string;
  motivation : list string
}.

Definition initialMoodData : MoodData :=
  mkMoodData 75 "😊 Happy"
    [ "Keep growing every day!";
      "You're stronger than you think.";
      "Small steps make a big difference." ].

Definition MOOD_KEY : string := "zenora-mood".

(** The object that [JSON.stringify(moodData)] serialises. *)
Definition moodDataToJS (md : MoodData) : JSValue :=
  JObject [ ("moodScore", JNumber (moodScore md));
            ("todayMood", JString (todayMood md));
            ("motivation", JArray (map JString (motivation md))) ].

Fixpoint asStrings (items : list JSValue) : option (list string) :=
  match items with
  | [] => Some []
  | JString s :: rest =>
      match asStrings rest with
      | Some l => Some (s :: l)
      | None => None
      end
  | _ :: _ => None
  end.

(** A parsed value seen at the type [MoodData] the code asserts for it. *)
Definition moodDataFromJS (v : JSValue) : option MoodData :=
  match v with
  | JObject fields =>
      match getProp "moodScore" fields, getProp "todayMood" fields,
            getProp "motivation" fields with
      | Some (JNumber n), Some (JString t), Some (JArray items) =>
          match asStrings items with
          | Some ms => Some (mkMoodData n t ms)
          | None => None
          end
      | _, _, _ => None
      end
  | _ => None
  end.

(** The effect that loads the saved mood on mount: the value handed to
    [setMoodData], if any. There is no [try] around [JSON.parse]. *)
Definition loadEffect (ls : Storage) : Completion (option JSValue) :=
  match getItem ls MOOD_KEY with
  | Some saved =>
      if truthy saved
      then bindC (Json.parse saved) (fun v => Normal (Some v))
      else Normal None
  | None => Normal None
  end.

(** The effect that saves the mood whenever it has changed. *)
Definition saveEffect (moodData : MoodData) (ls : Storage) : Storage :=
  setItem ls MOOD_KEY (stringify (moodDataToJS moodData)).

(** Mounting the screen: the first render holds the initial state, the
    load effect runs, then the save effect of that first render, and a
    loaded state causes a second render followed by its save effect. *)
Definition mountZenora (ls : Storage) : Completion (MoodData * Storage) :=
  bindC (loadEffect ls) (fun loaded =>
    let ls1 := saveEffect initialMoodData ls in
    match loaded with
    | None => Normal (initialMoodData, ls1)
    | Some v =>
        match moodDataFromJS v with
        | Some md => Normal (md, saveEffect md ls1)
        | None => OutOfModel
        end
    end).

(** *** Mood updates made by [handleSendMessage] *)

(** The optimistic update from a text, by the local classifier. *)
Definition applyLocal (text : string) (prev : MoodData) : MoodData :=
  let localMood := analyzeLocalMood text in
  mkMoodData (score localMood)
             (emoji localMood +:+ " " +:+ mood localMood)
             (motivation prev).

Record EmotionAnalysis := mkEmotionAnalysis {
  emotions : list string;
  intensity : Z
}.

Definition emojiMap : gmap string string :=
  list_to_map
    [ ("happy", "😊"); ("calm", "😌"); ("sad", "😔"); ("angry", "😡");
      ("anxious", "😰"); ("stressed", "😩"); ("relaxed", "😴") ].

(** [clamp(lo, hi, x)]: [x] bounded below by [lo] and above by [hi]. *)
Definition clamp (lo hi x : Z) : Z :=
  if x <? lo then lo else if hi <? x then hi else x.

(** The score recorded for a remote inference result. *)
Definition remoteScore (intensity : Z) : Z :=
  Z.min 100 (Z.max 0 (100 - intensity * 10)).

Definition remoteMood (moodData : MoodData) (ea : EmotionAnalysis) : MoodData :=
  let emotion := orElse (hd EmptyString (emotions ea)) "Calm" in
  let emoji := default "🙂" (emojiMap !! toLowerCase emotion) in
  mkMoodData (remoteScore (intensity ea))
             (emoji +:+ " " +:+ toUpperCase (charAt0 emotion) +:+ slice1 emotion)
             (motivation moodData).

(** What the inference service answered to one message. *)
Inductive RemoteReply :=
| ReplyError
| Reply (response : string) (emotionAnalysis : option EmotionAnalysis).

(** One message sent through the chat, from the state and the storage
    before it to the state and the storage once the reply has been
    handled and the save effects have run. [content] is the trimmed
    input; an empty one is ignored. *)
Definition handleSendMessage (content : string) (reply : RemoteReply)
    (st : MoodData * Storage) : MoodData * Storage :=
  let (moodData, ls) := st in
  if truthy content then
    let optimistic := applyLocal content moodData in
    let ls1 := saveEffect optimistic ls in
    match reply with
    | ReplyError => (optimistic, ls1)
    | Reply response (Some ea) =>
        let newMood := remoteMood moodData ea in
        (newMood,
         saveEffect newMood (setItem ls1 MOOD_KEY (stringify (moodDataToJS newMood))))
    | Reply response None =>
        let aiMood := applyLocal response optimistic in
        (aiMood, saveEffect aiMood ls1)
    end
  else st.

End Zenora.

(** ** Insights.tsx: the seven-day history and its average *)

Module Insights.
Import JsString Json LocalStorage.

Record MoodEntry := mkMoodEntry {
  date : string;
  mood : string;
  value : Z
}.

(** [Math.round]: the nearest integer, a half going up. *)
Definition Math_round (x : Q) : Z := Qfloor (x + (1 # 2)).

(** [x.toFixed(1)]: the decimal text with one fractional digit nearest
    to [x], the larger magnitude on a tie, held as its number of tenths. *)
Definition toFixed1 (x : Q) : Z :=
  if Qle_bool 0 x
  then Qfloor (x * 10 + (1 # 2))
  else - Qfloor (- x * 10 + (1 # 2)).

(** [parseFloat] of such a text. *)
Definition parseFloat (tenths : Z) : Q := tenths # 10.

Definition calculateAverageMood (data : list MoodEntry) : Q :=
  if Nat.eqb (length data) 0 then 0%Q
  else
    let sum := fold_left (fun acc d => acc + value d) data 0 in
    parseFloat (toFixed1 (sum # Pos.of_nat (length data))).

(** [arr.slice(-n)]: the last [n] elements, all of them when fewer. *)
Definition sliceLast {A} (n : nat) (l : list A) : list A :=
  drop (length l - n) l.

(** The updater handed to [setMoodData]. *)
Definition recordToday (today : string) (todayMood : MoodEntry)
    (prev : list MoodEntry) : list MoodEntry :=
  let filtered := filter (fun d => date d <> today) prev in
  sliceLast 6 filtered ++ [todayMood].

(** The 0..100 score rescaled to the 0..5 value of an entry. *)
Definition todayValue (moodScore : Z) : Z :=
  Math_round ((moodScore # 100) * 5).

(** Today's entry built from the parsed storage content. Reading a
    property of [null] throws. *)
Definition todayMoodOf (today : string) (parsed : JSValue) : Completion MoodEntry :=
  match parsed with
  | JNull => Throw TypeError
  | JObject fields =>
      match getProp "moodScore" fields, getProp "todayMood" fields with
      | Some (JNumber n), Some (JString m) => Normal (mkMoodEntry today m (todayValue n))
      | _, _ => OutOfModel
      end
  | _ => OutOfModel
  end.

(** The state of the screen. *)
Record InsightsState := mkInsightsState {
  moodData : list MoodEntry;
  averageMood : Q;
  streak : Z;
  timePracticed : Z;
  exercises : Z
}.

Definition initialState : InsightsState :=
  mkInsightsState [] (42 # 10) 7 89 12.

Section Metrics.

(** The JSON text of the object [{ averageMood, streak, timePracticed,
    exercises }]. Its first member is a decimal fraction, which the
    integer numbers of [Json] do not cover, so the text is a parameter
    of the embedding. *)
Variable metricsJSON : Q -> Z -> Z -> Z -> string.

(** One run of [updateFromStorage] at the date [today]. There is no
    [try] around [JSON.parse]. *)
Definition updateFromStorage (today : string) (st : InsightsState * Storage)
  : Completion (InsightsState * Storage) :=
  let (s, ls) := st in
  match getItem ls "zenora-mood" with
  | Some savedMood =>
      if truthy savedMood then
        bindC (Json.parse savedMood) (fun parsed =>
        bindC (todayMoodOf today parsed) (fun todayMood =>
          let updated := recordToday today todayMood (moodData s) in
          let avg := calculateAverageMood updated in
          Normal
            (mkInsightsState updated avg (streak s) (timePracticed s) (exercises s),
             setItem ls "insightsData"
               (metricsJSON avg (streak s) (timePracticed s) (exercises s)))))
      else Normal st
  | None => Normal st
  end.

(** Opening the screen, also after a reload of the page: the state
    starts from [initialState], whose history is empty, and
    [updateFromStorage] runs once. The two further effects of the screen
    load and save the manual metrics under "insightsData"; they do not
    touch the history and are left out. *)
Definition mountInsights (today : string) (ls : Storage)
  : Completion (InsightsState * Storage) :=
  updateFromStorage today (initialState, ls).

End Metrics.

(** The text [JSON.stringify] gives a number with at most one fractional
    digit, such as every average that [calculateAverageMood] returns. *)
Definition decimalText (q : Q) : string :=
  let tenths := Qfloor (q * 10) in
  (if tenths <? 0 then "-" else EmptyString)
    +:+ numberText (Z.abs tenths / 10)
    +:+ (if Z.abs tenths mod 10 =? 0 then EmptyString
         else "." +:+ numberText (Z.abs tenths mod 10)).

(** The metrics object as the screen writes it, for such an average. *)
Definition metricsText (averageMood : Q) (streak timePracticed exercises : Z) : string :=
  "{" +:+ quote "averageMood" +:+ ":" +:+ decimalText averageMood
      +:+ "," +:+ quote "streak" +:+ ":" +:+ numberText streak
      +:+ "," +:+ quote "timePracticed" +:+ ":" +:+ numberText timePracticed
      +:+ "," +:+ quote "exercises" +:+ ":" +:+ numberText exercises +:+ "}".

(** The history after the updater has run for each entry of [entries]
    in turn, each at the date the entry carries, from the empty history
    the screen starts with. *)
Definition recordAll (entries : list MoodEntry) : list MoodEntry :=
  fold_left (fun history e => recordToday (date e) e history) entries [].

(** The records that a history holds for the date [d]. *)
Definition recordsFor (d : string) (history : list MoodEntry) : list MoodEntry :=
  filter (fun e => date e = d) history.

(** The part of the previous history that the updater keeps: at most
    six entries, none of them for today. *)
Definition kept (today : string) (prev : list MoodEntry) : list MoodEntry :=
  sliceLast 6 (filter (fun d => date d <> today) prev).

(** The order of ISO dates: the order of their texts. *)
Definition dateBefore (a b : string) : Prop := String.ltb a b = true.

(** The arithmetic mean of the values of a history. *)
Definition sumValues (data : list MoodEntry) : Z :=
  fold_right (fun d acc => value d + acc) 0 data.

Definition mean (data : list MoodEntry) : Q :=
  sumValues data # Pos.of_nat (length data).

End Insights.

(** ** Dashboard.tsx: the streak *)

Module Dashboard.

(** A calendar day, as the number of the day: [toDateString] compares
    days, and [setDate(getDate() - 1)] moves to the day before. *)
Definition Day := Z.

(** The loop of [calculateStreak], from the day [currentDate] it expects
    next and the [streak] counted so far. *)
Fixpoint streakLoop (currentDate : Day) (streak : Z) (dates : list Day) : Z :=
  match dates with
  | [] => streak
  | d :: rest =>
      if d =? currentDate
      then streakLoop (currentDate - 1) (streak + 1) rest
      else streak
  end.

Definition calculateStreak (today : Day) (dates : list Day) : Z :=
  streakLoop today 0 dates.

(** Distinct dates, the most recent first. *)
Definition mostRecentFirst (dates : list Day) : Prop :=
  StronglySorted Z.gt dates.

End Dashboard.

(** ** MoodContext.tsx: the shared current mood *)

Module MoodContext.
Import JsString Json LocalStorage.

Record MoodPayload := mkMoodPayload {
  mood : string;
  value : option Z;
  source : option string;
  at_ : option string
}.

Definition STORAGE_KEY : string := "zenora_today_mood".

Definition optField (k : string) (v : option JSValue) : list (string * JSValue) :=
  match v with
  | Some x => [(k, x)]
  | None => []
  end.

(** The object that [JSON.stringify(mood)] serialises: a member that is
    [undefined] is left out. *)
Definition payloadToJS (m : MoodPayload) : JSValue :=
  JObject ([("mood", JString (mood m))]
           ++ optField "value" (JNumber <$> value m)
           ++ optField "source" (JString <$> source m)
           ++ optField "at" (JString <$> at_ m)).

(** The initial state of the provider: the stored value, or [null] when
    there is none or when reading it fails. *)
Definition initialMood (ls : Storage) : Completion (option JSValue) :=
  tryCatch
    (match getItem ls STORAGE_KEY with
     | Some raw =>
         if truthy raw
         then bindC (Json.parse raw) (fun v => Normal (Some v))
         else Normal None
     | None => Normal None
     end)
    (fun _ => Normal None).

(** [setMood] at the instant [now]: the state it sets. *)
Definition setMood (now : string) (m : MoodPayload) : option MoodPayload :=
  Some (mkMoodPayload (mood m) (value m) (source m)
                      (Some (default now (at_ m)))).

Definition clearMood : option MoodPayload := None.

(** The effect that follows every change of the state. *)
Definition persistEffect (mood : option MoodPayload) (ls : Storage) : Storage :=
  match mood with
  | Some m => setItem ls STORAGE_KEY (stringify (payloadToJS m))
  | None => removeItem ls STORAGE_KEY
  end.

End MoodContext.

(** ** The screens together *)

Module Session.
Import LocalStorage.

(** The history that the history screen holds after a run, when the run
    has completed. *)
Definition historyOf (run : Completion (Insights.InsightsState * Storage))
  : option (list Insights.MoodEntry) :=
  match run with
  | Normal (st, _) => Some (Insights.moodData st)
  | _ => None
  end.

(** Reloading the page with the history screen open, at the date
    [today], after a run: the screen is mounted anew over the storage
    that the run has left. *)
Definition reload (today : string)
    (run : Completion (Insights.InsightsState * Storage))
  : Completion (Insights.InsightsState * Storage) :=
  bindC run (fun r => Insights.mountInsights Insights.metricsText today (snd r)).

(** Two days of use: a message on 2 November with the history screen
    open, then a message on 3 November and the next run of
    [updateFromStorage]. *)
Definition twoDays : Completion (Insights.InsightsState * Storage) :=
  let (md1, ls1) :=
    Zenora.handleSendMessage "I feel sad" Zenora.ReplyError
      (Zenora.initialMoodData, ∅) in
  bindC (Insights.mountInsights Insights.metricsText "2026-11-02" ls1) (fun day1 =>
    let (md2, ls2) :=
      Zenora.handleSendMessage "what a great day" Zenora.ReplyError
        (md1, snd day1) in
    Insights.updateFromStorage Insights.metricsText "2026-11-03" (fst day1, ls2)).

End Session.

(** ** More of JavaScript's strings: white space and splitting *)

Module JsText.
Import JsString.

(** White space and line terminators, as [String.prototype.trim] knows
    them, in their UTF-8 bytes: the one-byte ones (tab, line feed,
    vertical tab, form feed, carriage return, space), U+00A0, and the
    three-byte ones (U+1680, U+2000 to U+200A, U+2028, U+2029, U+202F,
    U+205F, U+3000, U+FEFF). *)
Definition isWhite1 (a : ascii) : bool :=
  let n := N_of_ascii a in
  (((9 <=? n) && (n <=? 13)) || (n =? 32))%N.

Definition isWhite2 (a b : ascii) : bool :=
  ((N_of_ascii a =? 194) && (N_of_ascii b =? 160))%N.

Definition isWhite3 (a b c : ascii) : bool :=
  let x := N_of_ascii a in
  let y := N_of_ascii b in
  let z := N_of_ascii c in
  (((x =? 225) && (y =? 154) && (z =? 128))
   || ((x =? 226) && (y =? 128)
       && (((128 <=? z) && (z <=? 138)) || (z =? 168) || (z =? 169) || (z =? 175)))
   || ((x =? 226) && (y =? 129) && (z =? 159))
   || ((x =? 227) && (y =? 128) && (z =? 128))
   || ((x =? 239) && (y =? 187) && (z =? 191)))%N.

(** [s] begins with a white space character. *)
Definition startsWhite (s : string) : bool :=
  match s with
  | EmptyString => false
  | String a rest =>
      isWhite1 a
      || match rest with
         | EmptyString => false
         | String b rest2 =>
             isWhite2 a b
             || match rest2 with
                | EmptyString => false
                | String c _ => isWhite3 a b c
                end
         end
  end.

(** [s.trimStart()]. *)
Fixpoint trimStart (s : string) : string :=
  match s with
  | EmptyString => s
  | String a rest =>
      if isWhite1 a then trimStart rest
      else
        match rest with
        | EmptyString => s
        | String b rest2 =>
            if isWhite2 a b then trimStart rest2
            else
              match rest2 with
              | EmptyString => s
              | String c rest3 =>
                  if isWhite3 a b c then trimStart rest3 else s
              end
        end
  end.

(** [s.trim()] is empty: [s] is white space throughout. *)
Definition isBlank (s : string) : bool := negb (truthy (trimStart s)).

(** [s.trimEnd()]: the text up to the point from which it is white space
    throughout. *)
Fixpoint trimEnd (s : string) : string :=
  match s with
  | EmptyString => s
  | String a rest => if isBlank s then EmptyString else String a (trimEnd rest)
  end.

(** [s.trim()]. *)
Definition trim (s : string) : string := trimEnd (trimStart s).

(** [s.split(" ")]. *)
Fixpoint splitSpace (s : string) : list string :=
  match s with
  | EmptyString => [EmptyString]
  | String c rest =>
      if (N_of_ascii c =? 32)%N then EmptyString :: splitSpace rest
      else
        match splitSpace rest with
        | seg :: segs => String c seg :: segs
        | [] => [String c EmptyString]
        end
  end.

(** [arr.filter((_, idx) => keep(idx))], from the index [idx] on. *)
Fixpoint filterIndex {A} (keep : nat -> bool) (idx : nat) (l : list A) : list A :=
  match l with
  | [] => []
  | x :: rest =>
      if keep idx then x :: filterIndex keep (S idx) rest
      else filterIndex keep (S idx) rest
  end.

End JsText.

(** ** Zenora.tsx: the motivation board of the chat screen *)

Module ZenoraBoard.
Import JsString JsText LocalStorage Zenora.

(** [addMotivation], on the mood data and the text of the input field:
    a text that is blank is ignored, any other is appended as typed and
    the field is cleared. *)
Definition addMotivation (st : MoodData * string) : MoodData * string :=
  let (moodData, newMotivation) := st in
  if isBlank newMotivation then st
  else
    (mkMoodData (moodScore moodData) (todayMood moodData)
                (motivation moodData ++ [newMotivation]),
     EmptyString).

(** [deleteMotivation(i)]. *)
Definition deleteMotivation (i : nat) (moodData : MoodData) : MoodData :=
  mkMoodData (moodScore moodData) (todayMood moodData)
             (filterIndex (fun idx => negb (Nat.eqb idx i)) 0 (motivation moodData)).

End ZenoraBoard.

(** ** Insights.tsx: the value and the colour of a mood text *)

Module InsightsView.
Import JsString JsText.






End InsightsView.

(** ** Dashboard.tsx: the streak fetched from the mood entries *)

Module DashboardFetch.
Import Dashboard.

(** Adding a day to a [Set]: a day already there is not added again, a
    new one comes last. *)
Definition setAdd (seen : list Day) (d : Day) : list Day :=
  if decide (d ∈ seen) then seen else seen ++ [d].

(** [Array.from(new Set(days))]. *)
Definition uniqueDates (days : list Day) : list Day :=
  fold_left setAdd days [].

(** The rows of the query, newest first, each given by the calendar day
    of its [created_at]. *)
Definition newestFirst (rows : list Day) : Prop :=
  StronglySorted Z.ge rows.

(** [fetchStreak]: what the streak is afterwards, from the answer of the
    query ([None] for an error or no data) and the streak before. *)
Definition fetchStreak (today : Day) (data : option (list Day)) (streak : Z) : Z :=
  match data with
  | Some rows => calculateStreak today (uniqueDates rows)
  | None => streak
  end.

End DashboardFetch.

(** ** MoodContext.tsx: the stored payload read back *)

Module MoodProvider.
Import JsString Json LocalStorage MoodContext.

(** An optional member of an object at a type: absent, present at the
    type, or present at another type. *)
Definition optNumber (o : option JSValue) : option (option Z) :=
  match o with
  | None => Some None
  | Some (JNumber n) => Some (Some n)
  | Some _ => None
  end.

Definition optString (o : option JSValue) : option (option string) :=
  match o with
  | None => Some None
  | Some (JString s) => Some (Some s)
  | Some _ => None
  end.

(** A parsed value seen at the type [MoodPayload]. *)
Definition payloadFromJS (v : JSValue) : option MoodPayload :=
  match v with
  | JObject fields =>
      match getProp "mood" fields, optNumber (getProp "value" fields),
            optString (getProp "source" fields), optString (getProp "at" fields) with
      | Some (JString m), Some val, Some src, Some a => Some (mkMoodPayload m val src a)
      | _, _, _, _ => None
      end
  | _ => None
  end.

(** A page load followed by the changes of the state in [changes], each
    followed by the persisting effect: the state and the storage at the
    end. *)
Definition provide (changes : list (option MoodPayload)) (ls : Storage) : Storage :=
  fold_left (fun s mood => persistEffect mood s) changes ls.

End MoodProvider.

(** ** Exercises: progress and the motivation board *)

Module Exercises.
Import JsString JsText Dashboard.

(** A row of [user_progress]. A numeric column that is [null] behaves
    as 0 wherever the code reads it. *)
Record UserProgress := mkUserProgress {
  exercises_done : Z;
  minutes_practiced : Z;
  day_streak : Z;
  last_exercise_at : option Day
}.

(** [x || fallback] on numbers. *)
Definition orNumber (x fallback : Z) : Z := if x =? 0 then fallback else x.

(** The row that [handleExerciseComplete] writes on the day [today],
    from the exercise's duration and the row it has read ([None] when
    there is none). *)
Definition handleExerciseComplete (today : Day) (duration : Z)
    (progressData : option UserProgress) : UserProgress :=
  let newExercises := orNumber (default 0 (exercises_done <$> progressData)) 0 + 1 in
  let newMinutes := orNumber (default 0 (minutes_practiced <$> progressData)) 0 + duration in
  let newStreak := orNumber (default 0 (day_streak <$> progressData)) 1 in
  let newStreak :=
    match progressData ≫= last_exercise_at with
    | Some lastDate => if lastDate =? today then newStreak else newStreak + 1
    | None => newStreak
    end in
  mkUserProgress newExercises newMinutes newStreak (Some today).

(** Exercises completed on the days [days] in turn, each reading the row
    that the one before has written, with no other writer of the row in
    between. *)
Definition completeAll (duration : Z) (days : list Day) (row : option UserProgress)
  : option UserProgress :=
  fold_left (fun r day => Some (handleExerciseComplete day duration r)) days row.

(** The number of places in [days] where the day differs from the one
    before, [last] being the day before the first. *)
Fixpoint dayChanges (last : Day) (days : list Day) : Z :=
  match days with
  | [] => 0
  | d :: rest => (if d =? last then 0 else 1) + dayChanges d rest
  end.

Definition initialMotivations : list string :=
  [ "Keep going, you're doing great!"; "Every breath counts."; "You’ve got this!" ].

(** [addMotivation], on the board and the text of the input field: the
    trimmed text is appended unless it is empty. *)
Definition addMotivation (st : list string * string) : list string * string :=
  let (motivations, newMotivation) := st in
  if truthy (trim newMotivation)
  then (motivations ++ [trim newMotivation], EmptyString)
  else st.

Definition deleteMotivation (index : nat) (motivations : list string) : list string :=
  filterIndex (fun i => negb (Nat.eqb i index)) 0 motivations.

(** What the user does on the board. *)
Inductive BoardAction :=
| Type_ (text : string)
| Add
| Delete (index : nat).

Definition act (st : list string * string) (a : BoardAction) : list string * string :=
  match a with
  | Type_ text => (fst st, text)
  | Add => addMotivation st
  | Delete index => (deleteMotivation index (fst st), snd st)
  end.

End Exercises.

(** ** Settings: profile, privacy and the deletion of the local data *)

Module Settings.
Import JsString Json LocalStorage.

Record Profile := mkProfile {
  name : string;
  email : string;
  bio : string
}.

Record Privacy := mkPrivacy {
  shareData : bool;
  locationAccess : bool
}.

Definition initialProfile : Profile := mkProfile EmptyString EmptyString EmptyString.
Definition initialPrivacy : Privacy := mkPrivacy true false.

Definition profileToJS (p : Profile) : JSValue :=
  JObject [ ("name", JString (name p)); ("email", JString (email p));
            ("bio", JString (bio p)) ].

Definition privacyToJS (p : Privacy) : JSValue :=
  JObject [ ("shareData", JBool (shareData p));
            ("locationAccess", JBool (locationAccess p)) ].

Definition profileFromJS (v : JSValue) : option Profile :=
  match v with
  | JObject fields =>
      match getProp "name" fields, getProp "email" fields, getProp "bio" fields with
      | Some (JString n), Some (JString e), Some (JString b) => Some (mkProfile n e b)
      | _, _, _ => None
      end
  | _ => None
  end.

Definition privacyFromJS (v : JSValue) : option Privacy :=
  match v with
  | JObject fields =>
      match getProp "shareData" fields, getProp "locationAccess" fields with
      | Some (JBool s), Some (JBool l) => Some (mkPrivacy s l)
      | _, _ => None
      end
  | _ => None
  end.

(** [if (text) set(JSON.parse(text))]: the value to set, if any. *)
Definition parseIfPresent (text : option string) : Completion (option JSValue) :=
  match text with
  | Some t =>
      if truthy t then bindC (Json.parse t) (fun v => Normal (Some v))
      else Normal None
  | None => Normal None
  end.

(** The hydrating effect: the values handed to [setProfile] and to
    [setPrivacy]. Both texts are read first and parsed in turn inside one
    [try]: an exception ends the block, and what had been set before it
    stays set. *)
Definition hydrate (ls : Storage) : option JSValue * option JSValue :=
  let p := getItem ls "zenora_profile" in
  let priv := getItem ls "zenora_privacy" in
  match parseIfPresent p with
  | Normal profile =>
      match parseIfPresent priv with
      | Normal privacy => (profile, privacy)
      | _ => (profile, None)
      end
  | _ => (None, None)
  end.

(** The two persisting effects. *)
Definition persist (profile : Profile) (privacy : Privacy) (ls : Storage) : Storage :=
  setItem (setItem ls "zenora_profile" (stringify (profileToJS profile)))
          "zenora_privacy" (stringify (privacyToJS privacy)).

(** A value handed to a setter, at the type of the state; the state
    before when nothing was handed. *)
Definition settle {A} (fromJS : JSValue -> option A) (before : A)
    (set : option JSValue) : Completion A :=
  match set with
  | None => Normal before
  | Some v =>
      match fromJS v with
      | Some a => Normal a
      | None => OutOfModel
      end
  end.

(** Mounting the page: the first render holds the initial states, the
    hydrating effect runs, then the persisting effects of that first
    render, and the hydrated states cause a second render followed by its
    persisting effects. *)
Definition mountSettings (ls : Storage) : Completion (Profile * Privacy * Storage) :=
  let (setProfile, setPrivacy) := hydrate ls in
  let ls1 := persist initialProfile initialPrivacy ls in
  bindC (settle profileFromJS initialProfile setProfile) (fun profile =>
  bindC (settle privacyFromJS initialPrivacy setPrivacy) (fun privacy =>
    Normal (profile, privacy, persist profile privacy ls1))).


End Settings.

(** ** Journal.tsx: entries and tags *)

Module Journal.
Import JsString JsText.

Module Entry.
Record t := mk {
  id : Z;
  title : string;
  content : string;
  mood : string;
  tags : list string;
  createdAt : Z
}.
End Entry.

(** The state of the page. *)
Record State := mkState {
  isWriting : bool;
  title : string;
  content : string;
  selectedMood : string;
  tags : list string;
  newTag : string;
  entries : list Entry.t
}.

(** [handleSaveEntry], [now] being the reading of [Date.now()] and
    [created] that of [new Date()]. *)
Definition handleSaveEntry (now created : Z) (st : State) : State :=
  if isBlank (content st) || negb (truthy (selectedMood st)) then st
  else
    let newEntry :=
      Entry.mk now (orElse (title st) "Untitled Entry") (content st)
               (selectedMood st) (tags st) created in
    mkState false EmptyString EmptyString EmptyString [] (newTag st)
            (newEntry :: entries st).

Definition addTag (st : State) : State :=
  if truthy (newTag st) && negb (bool_decide (newTag st ∈ tags st))
  then mkState (isWriting st) (title st) (content st) (selectedMood st)
               (tags st ++ [newTag st]) EmptyString (entries st)
  else st.

Definition removeTag (tagToRemove : string) (st : State) : State :=
  mkState (isWriting st) (title st) (content st) (selectedMood st)
          (filter (fun tag => tag <> tagToRemove) (tags st)) (newTag st) (entries st).

Definition deleteEntry (id : Z) (st : State) : State :=
  mkState (isWriting st) (title st) (content st) (selectedMood st)
          (tags st) (newTag st)
          (filter (fun entry => Entry.id entry <> id) (entries st)).

(** What the user does with the tags of the entry being written. *)
Inductive TagAction :=
| TypeTag (text : string)
| AddTag
| RemoveTag (tag : string).

Definition actTag (st : State) (a : TagAction) : State :=
  match a with
  | TypeTag text =>
      mkState (isWriting st) (title st) (content st) (selectedMood st)
              (tags st) text (entries st)
  | AddTag => addTag st
  | RemoveTag tag => removeTag tag st
  end.

End Journal.

(** ** Zenora.tsx: the transcript of the chat *)

Module ZenoraChat.
Import JsString JsText Json Zenora.

Inductive Role := user | assistant.

Record Message := mkMessage {
  id : string;
  role : Role;
  content : string;
  timestamp : Z
}.

(** The transcript the screen starts with, [mounted] being the reading
    of the clock at the first render. *)
Definition initialMessages (mounted : Z) : list Message :=
  [ mkMessage "1" assistant
      "Hello! I'm Zenora, your AI wellness companion. How are you feeling today?"
      mounted ].

Definition connectionTrouble : string :=
  "I'm having trouble connecting right now. Please try again in a moment.".

(** The readings of the clock during one call: [Date.now()] and
    [new Date()] for the user's message, and again for the reply. *)
Record Clock := mkClock {
  sentNow : Z;
  sentDate : Z;
  repliedNow : Z;
  repliedDate : Z
}.

(** The [context] member of the request: role and content of the last
    five messages of the transcript the handler was created with, which
    does not hold the message being sent. *)
Definition context (messages : list Message) : list (Role * string) :=
  (fun m => (role m, content m)) <$> Insights.sliceLast 5 messages.

(** The transcript after [handleSendMessage], from the text of the input
    field, [isLoading], the answer of the service and the transcript
    before. *)
Definition sendMessage (clock : Clock) (input : string) (isLoading : bool)
    (reply : RemoteReply) (messages : list Message) : list Message :=
  if isBlank input || isLoading then messages
  else
    let userMessage :=
      mkMessage (numberText (sentNow clock)) user (trim input) (sentDate clock) in
    let answer :=
      match reply with
      | Reply response _ => response
      | ReplyError => connectionTrouble
      end in
    (messages ++ [userMessage])
    ++ [mkMessage (numberText (repliedNow clock + 1)) assistant answer (repliedDate clock)].

(** Calls made one after the other: each finds [isLoading] false, as the
    call before has left it. *)
Record Send := mkSend {
  clock : Clock;
  input : string;
  reply : RemoteReply
}.

Definition chat (sends : list Send) (messages : list Message) : list Message :=
  fold_left (fun ms s => sendMessage (clock s) (input s) false (reply s) ms) sends messages.

(** The roles of a transcript that starts with the assistant and then
    holds [n] exchanges, the user first in each. *)
Fixpoint exchanges (n : nat) : list Role :=
  match n with
  | O => []
  | S n => user :: assistant :: exchanges n
  end.

End ZenoraChat.

(** ** Dashboard.tsx: the name in the greeting *)

Module DashboardGreeting.
Import JsString JsText.

(** [user?.user_metadata?.full_name?.split(' ')[0] || 'Friend'], from
    the full name, [None] when a link of the chain is missing. *)
Definition userName (full_name : option string) : string :=
  orElse (default EmptyString (full_name ≫= fun n => head (splitSpace n))) "Friend".

End DashboardGreeting.

(** * Properties *)

(** ** Substring search *)

Module JsStringFacts.
Import JsString.

Lemma startsWith_spec (s k : string) :
  startsWith s k = true <-> exists t, s = k +:+ t.
Proof.
  revert s. induction k as [|a k IH]; intros s; simpl.
  - split; [intros _; exists s; reflexivity | reflexivity].
  - destruct s as [|b s].
    + split; [discriminate | intros [t Ht]; discriminate].
    + destruct (Ascii.eqb_spec a b) as [->|Hne].
      * rewrite IH. split; intros [t Ht]; exists t.
        -- now rewrite Ht.
        -- now injection Ht.
      * split; [discriminate | intros [t Ht]; injection Ht; congruence].
Qed.

Lemma includes_spec (s k : string) :
  includes s k = true <-> exists a b, s = a +:+ k +:+ b.
Proof.
  induction s as [|c s IH]; simpl.
  - rewrite orb_false_r, startsWith_spec. split.
    + intros [t Ht]. exists EmptyString, t. exact Ht.
    + intros [a [b Hab]]. destruct a as [|x a]; [|discriminate].
      exists b. exact Hab.
  - rewrite orb_true_iff, startsWith_spec, IH. split.
    + intros [[t Ht] | [a [b Hab]]].
      * exists EmptyString, t. exact Ht.
      * exists (String c a), b. simpl. now rewrite Hab.
    + intros [a [b Hab]]. destruct a as [|x a].
      * left. exists b. exact Hab.
      * right. simpl in Hab. injection Hab as -> ->. now exists a, b.
Qed.

Lemma toLowerCase_idempotent (s : string) :
  toLowerCase (toLowerCase s) = toLowerCase s.
Proof.
  induction s as [|c s IH]; simpl; [reflexivity|].
  rewrite IH. f_equal.
  destruct c as [[] [] [] [] [] [] [] []]; reflexivity.
Qed.

Lemma toLowerCase_toUpperCase (s : string) :
  toLowerCase (toUpperCase s) = toLowerCase s.
Proof.
  induction s as [|c s IH]; simpl; [reflexivity|].
  rewrite IH. f_equal.
  destruct c as [[] [] [] [] [] [] [] []]; reflexivity.
Qed.

End JsStringFacts.

(** ** The local classifier *)

Module ClassifierFacts.
Import JsString JsStringFacts Zenora.

(** The chain of [if]s is the first-match reading of the rule table. *)
Lemma analyzeLocalMood_classify (message : string) :
  analyzeLocalMood message = classify message.
Proof.
  unfold analyzeLocalMood, classify, ruleTable, firstMatch, fires.
  cbn [existsb keywords outcome].
  rewrite !orb_false_r, !orb_assoc. reflexivity.
Qed.

Lemma firstMatch_split (lower : string) (pre post : list Rule) (r : Rule) :
  (forall r', In r' pre -> fires lower r' = false) ->
  fires lower r = true ->
  firstMatch (pre ++ r :: post) lower = outcome r.
Proof.
  induction pre as [|p pre IH]; intros Hpre Hr; simpl.
  - now rewrite Hr.
  - rewrite (Hpre p (or_introl eq_refl)). apply IH; [|exact Hr].
    intros r' Hin. apply Hpre. now right.
Qed.

Lemma firstMatch_none (lower : string) (rules : list Rule) :
  (forall r, In r rules -> fires lower r = false) ->
  firstMatch rules lower = Neutral.
Proof.
  induction rules as [|p rules IH]; intros Hno; simpl; [reflexivity|].
  rewrite (Hno p (or_introl eq_refl)). apply IH.
  intros r Hin. apply Hno. now right.
Qed.

Lemma firstMatch_range (lower : string) (rules : list Rule) :
  firstMatch rules lower = Neutral \/
  exists r, In r rules /\ fires lower r = true /\ firstMatch rules lower = outcome r.
Proof.
  induction rules as [|p rules IH]; simpl; [now left|].
  destruct (fires lower p) eqn:Hp.
  - right. exists p. auto.
  - destruct IH as [IH | [r [Hin [Hf Hr]]]]; [now left|].
    right. exists r. auto.
Qed.

Lemma fires_false (lower : string) (r : Rule) :
  (forall k, In k (keywords r) -> includes lower k = false) ->
  fires lower r = false.
Proof.
  intros Hno. unfold fires.
  destruct (existsb (includes lower) (keywords r)) eqn:He; [|reflexivity].
  apply existsb_exists in He. destruct He as [k [Hin Hk]].
  rewrite (Hno k Hin) in Hk. discriminate.
Qed.

(** C1, as amended: the label the classifier returns is the capitalised
    display label. For the text "I feel sad and tired" the classifier
    returns the label "Sad" with score 45. The classifier is the
    first-match reading of the ordered rule table: the earliest rule one
    of whose keywords occurs as a substring of the lowercased text gives
    the result, whatever later rules would also fire; two texts with the
    same lowercase form are classified alike. *)
Theorem analyzeLocalMood_first_match :
  analyzeLocalMood "I feel sad and tired" = mkLocalMood "😔" "Sad" 45 /\
  (forall message, analyzeLocalMood message = firstMatch ruleTable (toLowerCase message)) /\
  (forall message pre r post,
      ruleTable = pre ++ r :: post ->
      (forall r', In r' pre -> fires (toLowerCase message) r' = false) ->
      fires (toLowerCase message) r = true ->
      analyzeLocalMood message = outcome r) /\
  (forall lower r,
      fires lower r = true <->
      exists k a b, In k (keywords r) /\ lower = a +:+ k +:+ b) /\
  (forall m m', toLowerCase m = toLowerCase m' ->
                analyzeLocalMood m = analyzeLocalMood m') /\
  (forall m, analyzeLocalMood (toUpperCase m) = analyzeLocalMood m).
Proof.
  split; [reflexivity|].
  split; [exact analyzeLocalMood_classify|].
  split.
  { intros message pre r post Htable Hpre Hr.
    rewrite analyzeLocalMood_classify. unfold classify. rewrite Htable.
    now apply firstMatch_split. }
  split.
  { intros lower r. unfold fires. rewrite existsb_exists. split.
    - intros [k [Hin Hk]]. apply includes_spec in Hk.
      destruct Hk as [a [b Hab]]. now exists k, a, b.
    - intros [k [a [b [Hin Hab]]]]. exists k. split; [exact Hin|].
      apply includes_spec. now exists a, b. }
  split.
  { intros m m' Heq. unfold analyzeLocalMood. now rewrite Heq. }
  intros m. unfold analyzeLocalMood. now rewrite toLowerCase_toUpperCase.
Qed.

(** The second rule decides a text that holds no keyword of the first
    rule, although keywords of the third and fifth rules occur too. *)
Lemma analyzeLocalMood_first_match_witness :
  ruleTable = [mkRule ["sad"; "tired"; "upset"] Sad]
                ++ mkRule ["angry"; "mad"] Angry
                :: [ mkRule ["happy"; "great"; "good"] Happy;
                     mkRule ["anxious"; "worried"] Anxious;
                     mkRule ["relax"; "calm"] Calm ] /\
  fires (toLowerCase "So MAD, but a good walk kept me calm")
        (mkRule ["angry"; "mad"] Angry) = true /\
  analyzeLocalMood "So MAD, but a good walk kept me calm" = Angry.
Proof.
  split; [reflexivity|]. split; [reflexivity|].
  apply (proj1 (proj2 (proj2 analyzeLocalMood_first_match))
           "So MAD, but a good walk kept me calm"
           [mkRule ["sad"; "tired"; "upset"] Sad]
           (mkRule ["angry"; "mad"] Angry)
           [ mkRule ["happy"; "great"; "good"] Happy;
             mkRule ["anxious"; "worried"] Anxious;
             mkRule ["relax"; "calm"] Calm ]).
  - reflexivity.
  - intros r' [<- | []]. reflexivity.
  - reflexivity.
Defined.

(** C1 as stated fails on the letter case of the label: the label is
    "Sad", not "sad". *)
Lemma analyzeLocalMood_label_not_lowercase :
  mood (analyzeLocalMood "I feel sad and tired") <> "sad".
Proof. discriminate. Qed.

(** C2, as amended: the fallback label is the capitalised "Neutral". The
    classifier is a total function: every text, the empty one included,
    is given one of the six outcomes of the table, and a text in whose
    lowercase form no keyword of any rule occurs is given the fallback,
    label "Neutral" with score 70. *)
Theorem analyzeLocalMood_total_neutral_fallback :
  (forall message,
      In (analyzeLocalMood message) [Sad; Angry; Happy; Anxious; Calm; Neutral]) /\
  analyzeLocalMood EmptyString = mkLocalMood "🙂" "Neutral" 70 /\
  (forall message,
      (forall r k, In r ruleTable -> In k (keywords r) ->
                   includes (toLowerCase message) k = false) ->
      analyzeLocalMood message = mkLocalMood "🙂" "Neutral" 70).
Proof.
  split.
  { intros message. rewrite analyzeLocalMood_classify. unfold classify.
    destruct (firstMatch_range (toLowerCase message) ruleTable)
      as [-> | [r [Hin [_ ->]]]].
    - simpl. tauto.
    - simpl in Hin. simpl.
      destruct Hin as [<- | [<- | [<- | [<- | [<- | []]]]]]; simpl; tauto. }
  split; [reflexivity|].
  intros message Hno. rewrite analyzeLocalMood_classify. unfold classify.
  apply firstMatch_none. intros r Hin. apply fires_false.
  intros k Hk. now apply (Hno r).
Qed.

Lemma analyzeLocalMood_total_neutral_fallback_witness :
  (forall r k, In r ruleTable -> In k (keywords r) ->
               includes (toLowerCase "Just woke UP") k = false) /\
  analyzeLocalMood "Just woke UP" = mkLocalMood "🙂" "Neutral" 70.
Proof.
  assert (Hno : forall r k, In r ruleTable -> In k (keywords r) ->
                            includes (toLowerCase "Just woke UP") k = false).
  { intros r k Hr Hk. simpl in Hr.
    destruct Hr as [<- | [<- | [<- | [<- | [<- | []]]]]]; simpl in Hk;
      repeat (destruct Hk as [<- | Hk]; [reflexivity|]); destruct Hk. }
  split; [exact Hno|].
  exact (proj2 (proj2 analyzeLocalMood_total_neutral_fallback) "Just woke UP" Hno).
Defined.

(** C2 as stated fails on the letter case of the fallback label. *)
Lemma analyzeLocalMood_fallback_not_lowercase :
  mood (analyzeLocalMood EmptyString) <> "neutral".
Proof. discriminate. Qed.

End ClassifierFacts.

(** ** The streak *)

Module StreakFacts.
Import Dashboard.

Lemma streakLoop_spec (dates : list Day) :
  forall currentDate streak,
    mostRecentFirst dates ->
    Forall (fun d => d <= currentDate) dates ->
    let n := streakLoop currentDate streak dates - streak in
    0 <= n /\
    (forall i, 0 <= i < n -> In (currentDate - i) dates) /\
    ~ In (currentDate - n) dates.
Proof.
  induction dates as [|d rest IH]; intros cur acc Hsorted Hle; simpl.
  - replace (acc - acc) with 0 by lia. split; [lia|]. split; [lia|]. tauto.
  - apply StronglySorted_inv in Hsorted. destruct Hsorted as [Hrest Hd].
    apply Forall_cons in Hle. destruct Hle as [Hdcur Hle].
    destruct (Z.eqb_spec d cur) as [->|Hne].
    + assert (Hle' : Forall (fun x => x <= cur - 1) rest).
      { eapply Forall_impl; [exact Hd|]. simpl. intros x Hx. lia. }
      specialize (IH (cur - 1) (acc + 1) Hrest Hle').
      destruct IH as [Hn [Hin Hout]].
      set (m := streakLoop (cur - 1) (acc + 1) rest) in *.
      split; [lia|]. split.
      * intros i Hi. destruct (Z.eq_dec i 0) as [->|Hi0].
        -- left. lia.
        -- right. replace (cur - i) with (cur - 1 - (i - 1)) by lia.
           apply Hin. lia.
      * intros [Heq | Hin'].
        -- lia.
        -- apply Hout. replace (cur - 1 - (m - (acc + 1))) with (cur - (m - acc)) by lia.
           exact Hin'.
    + replace (acc - acc) with 0 by lia. split; [lia|]. split; [lia|].
      replace (cur - 0) with cur by lia.
      intros [Heq | Hin']; [congruence|].
      rewrite Forall_forall in Hd. specialize (Hd cur).
      assert (d > cur) by (apply Hd; apply list_elem_of_In; exact Hin').
      lia.
Qed.

Lemma calculateStreak_no_today (today : Day) (dates : list Day) :
  ~ In today dates -> calculateStreak today dates = 0.
Proof.
  unfold calculateStreak. destruct dates as [|d rest]; simpl; [reflexivity|].
  intros Hno. destruct (Z.eqb_spec d today) as [->|Hne]; [|reflexivity].
  exfalso. apply Hno. now left.
Qed.

Lemma streakLoop_prefix (dates : list Day) :
  forall currentDate streak,
    let n := streakLoop currentDate streak dates - streak in
    0 <= n <= Z.of_nat (length dates) /\
    (forall i, 0 <= i < n -> dates !! Z.to_nat i = Some (currentDate - i)) /\
    dates !! Z.to_nat n <> Some (currentDate - n).
Proof.
  induction dates as [|d rest IH]; intros cur acc; cbv zeta; cbn [streakLoop].
  - replace (acc - acc) with 0 by lia. cbn [length]. split; [lia|].
    split; [lia | discriminate].
  - destruct (Z.eqb_spec d cur) as [->|Hne].
    + specialize (IH (cur - 1) (acc + 1)). cbv zeta in IH.
      destruct IH as [Hn [Hin Hout]].
      set (m := streakLoop (cur - 1) (acc + 1) rest) in *.
      cbn [length]. rewrite Nat2Z.inj_succ. split; [lia|]. split.
      * intros i Hi. destruct (Z.eq_dec i 0) as [->|Hi0].
        -- replace (cur - 0) with cur by lia. reflexivity.
        -- replace (Z.to_nat i) with (S (Z.to_nat (i - 1))) by lia.
           replace (cur - i) with (cur - 1 - (i - 1)) by lia.
           apply (Hin (i - 1)). lia.
      * replace (Z.to_nat (m - acc)) with (S (Z.to_nat (m - (acc + 1)))) by lia.
        intros Heq. apply Hout.
        replace (cur - 1 - (m - (acc + 1))) with (cur - (m - acc)) by lia. exact Heq.
    + replace (acc - acc) with 0 by lia. cbn [length]. rewrite Nat2Z.inj_succ.
      split; [lia|]. split; [lia|].
      cbn. intros [= Heq]. lia.
Qed.

Lemma calculateStreak_three (today : Day) (older : list Day) :
  ~ In (today - 3) older ->
  calculateStreak today (today :: today - 1 :: today - 2 :: older) = 3.
Proof.
  intros Hgap. unfold calculateStreak. cbn [streakLoop].
  rewrite !Z.eqb_refl.
  replace (today - 1 - 1) with (today - 2) by lia. rewrite Z.eqb_refl.
  destruct older as [|d older]; [reflexivity|]. cbn [streakLoop].
  destruct (Z.eqb_spec d (today - 2 - 1)) as [->|Hne]; [|reflexivity].
  exfalso. apply Hgap. left. lia.
Qed.

(** C4: the streak counts the consecutive calendar days ending at today:
    it walks the dates from the most recent one, counts a date while it
    is the day expected next (today, then the day before, and so on) and
    stops at the first date that is not. For distinct recorded dates
    ordered most recent first, none of them after today, this is the
    number of consecutive days ending at today that are all recorded:
    each of the [n] days from today back is present and the next one is
    missing. With today, yesterday and the day before recorded and the
    day before that missing the streak is 3; with no record for today it
    is 0, whatever earlier days are recorded. *)
Theorem calculateStreak_consecutive_days :
  (forall today dates,
      let n := calculateStreak today dates in
      0 <= n <= Z.of_nat (length dates) /\
      (forall i, 0 <= i < n -> dates !! Z.to_nat i = Some (today - i)) /\
      dates !! Z.to_nat n <> Some (today - n)) /\
  (forall today dates,
      mostRecentFirst dates ->
      Forall (fun d => d <= today) dates ->
      let n := calculateStreak today dates in
      (forall i, 0 <= i < n -> In (today - i) dates) /\
      ~ In (today - n) dates) /\
  (forall today older,
      ~ In (today - 3) older ->
      calculateStreak today (today :: today - 1 :: today - 2 :: older) = 3) /\
  (forall today dates, ~ In today dates -> calculateStreak today dates = 0).
Proof.
  split; [|split; [|split]].
  - intros today dates n.
    pose proof (streakLoop_prefix dates today 0) as H. cbv zeta in H.
    fold (calculateStreak today dates) in H. fold n in H.
    replace (n - 0) with n in H by lia. exact H.
  - intros today dates Hsorted Hle n.
    destruct (streakLoop_spec dates today 0 Hsorted Hle) as [Hn [Hin Hout]].
    fold (calculateStreak today dates) in Hn, Hin, Hout. fold n in Hn, Hin, Hout.
    replace (n - 0) with n in * by lia. now split.
  - exact calculateStreak_three.
  - exact calculateStreak_no_today.
Qed.

Lemma calculateStreak_consecutive_days_witness :
  mostRecentFirst [100; 99; 98; 96; 95] /\
  Forall (fun d => d <= 100) [100; 99; 98; 96; 95] /\
  ~ In (100 - 3) [96; 95] /\
  calculateStreak 100 [100; 99; 98; 96; 95] = 3 /\
  ~ In (100 - calculateStreak 100 [100; 99; 98; 96; 95]) [100; 99; 98; 96; 95].
Proof.
  assert (Hs : mostRecentFirst [100; 99; 98; 96; 95]).
  { unfold mostRecentFirst. repeat constructor. }
  assert (Hl : Forall (fun d => d <= 100) [100; 99; 98; 96; 95]).
  { repeat constructor; lia. }
  assert (Hgap : ~ In (100 - 3) [96; 95]).
  { simpl. intros [H | [H | []]]; discriminate H. }
  split; [exact Hs|]. split; [exact Hl|]. split; [exact Hgap|]. split.
  - exact (proj1 (proj2 (proj2 calculateStreak_consecutive_days)) 100 [96; 95] Hgap).
  - exact (proj2 (proj1 (proj2 calculateStreak_consecutive_days)
                    100 [100; 99; 98; 96; 95] Hs Hl)).
Defined.

End StreakFacts.

(** ** JSON: reading back what was written *)

Module JsonFacts.
Import JsString Json.

Local Arguments String.append !_ _ / : simpl nomatch.

Lemma append_assoc (a b c : string) : (a +:+ b) +:+ c = a +:+ (b +:+ c).
Proof. induction a as [|x a IH]; simpl; [reflexivity | now rewrite IH]. Qed.

Lemma append_nil_r (a : string) : a +:+ EmptyString = a.
Proof. induction a as [|x a IH]; simpl; [reflexivity | now rewrite IH]. Qed.

Lemma length_append (a b : string) :
  String.length (a +:+ b) = (String.length a + String.length b)%nat.
Proof. induction a as [|x a IH]; simpl; [reflexivity | now rewrite IH]. Qed.

Lemma append_cons (c : ascii) (a b : string) :
  String c a +:+ b = String c (a +:+ b).
Proof. reflexivity. Qed.

Lemma str1_append (n : N) (a : string) : str1 n +:+ a = String (chr n) a.
Proof. reflexivity. Qed.

(** *** String literals *)

Lemma parseChars_escapeChar (c : ascii) (text : string) :
  parseChars (escapeChar c +:+ text) =
  match parseChars text with
  | Some (t, r) => Some (String c t, r)
  | None => None
  end.
Proof.
  destruct c as [[] [] [] [] [] [] [] []]; reflexivity.
Qed.

Lemma parseChars_escape (s rest : string) :
  parseChars (escape s +:+ String (chr QUOTE) rest) = Some (s, rest).
Proof.
  induction s as [|c s IH].
  - reflexivity.
  - change (escape (String c s)) with (escapeChar c +:+ escape s).
    rewrite append_assoc, parseChars_escapeChar, IH. reflexivity.
Qed.

Lemma parseChars_quote_tail (s rest : string) :
  parseChars ((escape s +:+ str1 QUOTE) +:+ rest) = Some (s, rest).
Proof. rewrite append_assoc. apply parseChars_escape. Qed.

(** *** Numbers *)

Lemma spanDigits_stop (rest : string) :
  endsNumber rest = true -> spanDigits rest = (EmptyString, rest).
Proof.
  destruct rest as [|c rest]; [reflexivity|].
  cbn [endsNumber spanDigits]. intros H. apply negb_true_iff in H. now rewrite H.
Qed.

Lemma spanDigits_uint (d : uint) (rest : string) :
  endsNumber rest = true ->
  spanDigits (NilEmpty.string_of_uint d +:+ rest) = (NilEmpty.string_of_uint d, rest).
Proof.
  intros Hrest. induction d as [|d IH|d IH|d IH|d IH|d IH|d IH|d IH|d IH|d IH|d IH];
    cbn [NilEmpty.string_of_uint];
    [ now apply spanDigits_stop | .. ];
    rewrite append_cons; cbn [spanDigits];
    match goal with
    | |- context [isDigit ?c] => change (isDigit c) with true
    end; cbv iota; rewrite IH; reflexivity.
Qed.

Lemma unorm_D0 (d d' : uint) : unorm d = D0 d' -> d' = Nil.
Proof.
  induction d; cbn [unorm]; intros H; try discriminate; auto.
  injection H as <-. reflexivity.
Qed.

Lemma to_uint_normal (n : N) : unorm (N.to_uint n) = N.to_uint n.
Proof.
  rewrite <- (DecimalN.Unsigned.of_to n) at 2.
  now rewrite DecimalN.Unsigned.to_of.
Qed.

Lemma to_uint_nonnil (n : N) : N.to_uint n <> Nil.
Proof.
  destruct n as [|p]; [discriminate|]. apply DecimalPos.Unsigned.to_uint_nonnil.
Qed.

Lemma readDigits_uint (negative : bool) (d : uint) (rest : string) :
  d <> Nil -> unorm d = d -> endsNumber rest = true ->
  readDigits negative (NilEmpty.string_of_uint d +:+ rest) =
  Some ((if negative then - Z.of_N (N.of_uint d) else Z.of_N (N.of_uint d)), rest).
Proof.
  intros Hnil Hnorm Hrest.
  assert (Hzero : NilZero.string_of_uint d = NilEmpty.string_of_uint d)
    by (destruct d; [congruence | reflexivity ..]).
  pose proof (NilZero.usu d Hnil) as Husu. rewrite Hzero in Husu.
  assert (Hlead : forall d', d = D0 d' -> d' = Nil)
    by (intros d' ->; now apply unorm_D0 in Hnorm).
  unfold readDigits. rewrite (spanDigits_uint d rest Hrest).
  destruct d as [|d|d|d|d|d|d|d|d|d|d]; [congruence | ..];
    try (rewrite (Hlead d eq_refl) in *);
    cbn [NilEmpty.string_of_uint] in *;
    match goal with
    | |- context [(code ?c =? 48)%N] =>
        let b := eval vm_compute in (code c =? 48)%N in
        change (code c =? 48)%N with b
    end; cbn [truthy andb]; rewrite Husu; reflexivity.
Qed.

Lemma parseNumber_uint (negative : bool) (d : uint) (rest : string) :
  d <> Nil -> unorm d = d -> endsNumber rest = true ->
  parseNumber ((if negative then "-" else EmptyString) +:+ NilEmpty.string_of_uint d +:+ rest) =
  Some ((if negative then - Z.of_N (N.of_uint d) else Z.of_N (N.of_uint d)), rest).
Proof.
  intros Hnil Hnorm Hrest.
  pose proof (readDigits_uint negative d rest Hnil Hnorm Hrest) as Hread.
  destruct negative.
  - exact Hread.
  - change (EmptyString +:+ NilEmpty.string_of_uint d +:+ rest)
      with (NilEmpty.string_of_uint d +:+ rest).
    rewrite <- Hread.
    destruct d as [|d|d|d|d|d|d|d|d|d|d]; [congruence | reflexivity ..].
Qed.

Lemma parseNumber_numberText (n : Z) (rest : string) :
  endsNumber rest = true ->
  parseNumber (numberText n +:+ rest) = Some (n, rest).
Proof.
  intros Hrest. unfold numberText. rewrite append_assoc.
  assert (Hzero : NilZero.string_of_uint (N.to_uint (Z.abs_N n))
                  = NilEmpty.string_of_uint (N.to_uint (Z.abs_N n))).
  { pose proof (to_uint_nonnil (Z.abs_N n)).
    destruct (N.to_uint (Z.abs_N n)); [congruence | reflexivity ..]. }
  rewrite Hzero.
  rewrite (parseNumber_uint (n <? 0) (N.to_uint (Z.abs_N n)) rest
             (to_uint_nonnil _) (to_uint_normal _) Hrest).
  rewrite DecimalN.Unsigned.of_to, N2Z.inj_abs_N.
  destruct (Z.ltb_spec n 0); f_equal; f_equal; lia.
Qed.

(** *** Values *)

Ltac eval_test :=
  match goal with
  | |- context [isWs ?c] =>
      let b := eval vm_compute in (isWs c) in
      lazymatch b with true => idtac | false => idtac end;
      change (isWs c) with b
  | |- context [(code ?c =? ?k)%N] =>
      let b := eval vm_compute in (code c =? k)%N in
      lazymatch b with true => idtac | false => idtac end;
      change (code c =? k)%N with b
  end.

Ltac eval_tests := repeat (progress (repeat eval_test; cbv iota)).

Lemma parseValue_number_start (fuel : nat) (c : ascii) (tail : string) :
  (isDigit c || (code c =? MINUS)%N) = true ->
  parseValue (S fuel) (String c tail) =
  match parseNumber (String c tail) with
  | Some (n, r) => Some (JNumber n, r)
  | None => None
  end.
Proof.
  destruct c as [[] [] [] [] [] [] [] []]; intros H;
    first [ now (vm_compute in H) | reflexivity ].
Qed.

Lemma numberText_head (n : Z) (rest : string) :
  exists c tail,
    numberText n +:+ rest = String c tail /\
    (isDigit c || (code c =? MINUS)%N) = true /\
    isWs c = false /\ (code c =? RBRACKET)%N = false.
Proof.
  unfold numberText. pose proof (to_uint_nonnil (Z.abs_N n)) as Hnil.
  destruct (n <? 0).
  - eexists _, _. split; [reflexivity|]. now vm_compute.
  - destruct (N.to_uint (Z.abs_N n)); [congruence | ..];
      (eexists _, _; split; [reflexivity|]; now vm_compute).
Qed.

Lemma stringify_head (v : JSValue) (rest : string) :
  exists c tail,
    stringify v +:+ rest = String c tail /\
    isWs c = false /\ (code c =? RBRACKET)%N = false.
Proof.
  destruct v as [|[]|n|s|items|fields];
    try (eexists _, _; split; [reflexivity|]; now vm_compute).
  destruct (numberText_head n rest) as [c [tail [H1 [_ H2]]]].
  now exists c, tail.
Qed.

Lemma parseValue_numberText (fuel : nat) (n : Z) (rest : string) :
  endsNumber rest = true ->
  parseValue (S fuel) (numberText n +:+ rest) = Some (JNumber n, rest).
Proof.
  intros Hrest.
  destruct (numberText_head n rest) as [c [tail [Heq [Hstart _]]]].
  pose proof (parseNumber_numberText n rest Hrest) as Hnum.
  rewrite Heq in *. rewrite parseValue_number_start by exact Hstart.
  now rewrite Hnum.
Qed.

Lemma parseValue_array_start (fuel : nat) (c : ascii) (tail : string) :
  isWs c = false -> (code c =? RBRACKET)%N = false ->
  parseValue (S fuel) (String (chr LBRACKET) (String c tail)) =
  match parseElements fuel (String c tail) with
  | Some (vs, r) => Some (JArray vs, r)
  | None => None
  end.
Proof.
  intros Hws Hclose. cbn [parseValue skipWs]. eval_tests.
  cbn [skipWs]. rewrite Hws, Hclose. reflexivity.
Qed.

Lemma parseValue_object_start (fuel : nat) (tail : string) :
  parseValue (S fuel) (String (chr LBRACE) (String (chr QUOTE) tail)) =
  match parseMembers fuel (String (chr QUOTE) tail) with
  | Some (ms, r) => Some (JObject ms, r)
  | None => None
  end.
Proof. reflexivity. Qed.

Lemma closeList_cons (close : N) (t : string) (texts : list string) (rest : string) :
  closeList close (t :: texts) +:+ rest =
  t +:+ match texts with
        | [] => String (chr close) rest
        | _ :: _ => String (chr COMMA) (closeList close texts +:+ rest)
        end.
Proof.
  cbn [closeList]. rewrite append_assoc. destruct texts; reflexivity.
Qed.

Lemma parse_stringify_fuel (fuel : nat) :
  (forall v rest,
      (size v <= fuel)%nat -> endsNumber rest = true ->
      parseValue fuel (stringify v +:+ rest) = Some (v, rest)) /\
  (forall v vs rest,
      (sizeItems (v :: vs) <= fuel)%nat ->
      parseElements fuel (closeList RBRACKET (map stringify (v :: vs)) +:+ rest)
      = Some (v :: vs, rest)) /\
  (forall kv kvs rest,
      (sizeFields (kv :: kvs) <= fuel)%nat ->
      parseMembers fuel (closeList RBRACE (map memberText (kv :: kvs)) +:+ rest)
      = Some (kv :: kvs, rest)).
Proof.
  induction fuel as [|fuel [IHv [IHe IHm]]].
  { split; [|split].
    - intros v rest Hsize. destruct v; simpl in Hsize; lia.
    - intros v vs rest Hsize. unfold sizeItems in Hsize. simpl in Hsize. lia.
    - intros kv kvs rest Hsize. unfold sizeFields in Hsize. simpl in Hsize. lia. }
  split; [|split].
  - intros v rest Hsize Hrest.
    destruct v as [|[]|n|s|items|fields]; try reflexivity.
    + now apply parseValue_numberText.
    + change (stringify (JString s) +:+ rest)
        with (String (chr QUOTE) ((escape s +:+ str1 QUOTE) +:+ rest)).
      cbn [parseValue skipWs]. eval_tests.
      now rewrite parseChars_quote_tail.
    + change (stringify (JArray items))
        with (String (chr LBRACKET) (closeList RBRACKET (map stringify items))).
      rewrite append_cons.
      destruct items as [|x items]; [reflexivity|].
      assert (Hsz : (sizeItems (x :: items) <= fuel)%nat)
        by (simpl in Hsize; unfold sizeItems; simpl; lia).
      pose proof (IHe x items rest Hsz) as Hpe.
      cbn [map] in *. rewrite closeList_cons in *.
      destruct (stringify_head x
                  match map stringify items with
                  | [] => String (chr RBRACKET) rest
                  | _ :: _ => String (chr COMMA)
                                (closeList RBRACKET (map stringify items) +:+ rest)
                  end) as [c [tail [Heq [Hws Hclose]]]].
      rewrite Heq in *. rewrite parseValue_array_start by assumption.
      now rewrite Hpe.
    + change (stringify (JObject fields))
        with (String (chr LBRACE) (closeList RBRACE (map memberText fields))).
      rewrite append_cons.
      destruct fields as [|kv fields]; [reflexivity|].
      assert (Hsz : (sizeFields (kv :: fields) <= fuel)%nat)
        by (simpl in Hsize; unfold sizeFields; simpl; lia).
      pose proof (IHm kv fields rest Hsz) as Hpm.
      cbn [map] in *. rewrite closeList_cons in *.
      unfold memberText at 1 in Hpm. unfold memberText at 1. unfold quote at 1 in Hpm.
      unfold quote at 1. rewrite !append_cons in *.
      rewrite parseValue_object_start. now rewrite Hpm.
  - intros v vs rest Hsize.
    unfold sizeItems in Hsize. simpl in Hsize.
    cbn [map]. rewrite closeList_cons.
    cbn [parseElements].
    destruct vs as [|w ws].
    + cbn [map]. rewrite IHv by (try reflexivity; lia).
      cbn [skipWs]. eval_tests. reflexivity.
    + cbn [map]. change (stringify w :: map stringify ws) with (map stringify (w :: ws)).
      rewrite IHv by (try reflexivity; lia).
      cbn [skipWs]. eval_tests.
      rewrite IHe; [reflexivity|]. unfold sizeItems. simpl in Hsize |- *. lia.
  - intros [k v] kvs rest Hsize.
    unfold sizeFields in Hsize. simpl in Hsize.
    cbn [map]. rewrite closeList_cons.
    unfold memberText at 1. cbn [fst snd]. unfold quote.
    rewrite !append_cons, !append_assoc, !append_cons.
    cbn [parseMembers skipWs]. eval_tests.
    rewrite str1_append, parseChars_escape.
    cbn [skipWs]. eval_tests.
    destruct kvs as [|kv' kvs'].
    + cbn [map]. rewrite IHv by (try reflexivity; lia).
      cbn [skipWs]. eval_tests. reflexivity.
    + cbn [map].
      change (memberText kv' :: map memberText kvs') with (map memberText (kv' :: kvs')).
      rewrite IHv by (try reflexivity; lia).
      cbn [skipWs]. eval_tests.
      rewrite IHm; [reflexivity|]. unfold sizeFields. simpl in Hsize |- *. lia.
Qed.

Lemma closeList_length {A} (f : A -> nat) (g : A -> string) (close : N) (l : list A) :
  (forall x, In x l -> (f x <= String.length (g x))%nat) ->
  (list_sum (map (fun x => S (f x)) l) <= String.length (closeList close (map g l)))%nat.
Proof.
  induction l as [|x l IH]; intros Hall.
  - simpl. lia.
  - cbn [map closeList]. rewrite length_append.
    pose proof (Hall x (or_introl eq_refl)) as Hx.
    assert (IH' := IH (fun y Hy => Hall y (or_intror Hy))).
    destruct l as [|y l].
    + simpl. lia.
    + cbn [map] in *. cbn [String.length]. simpl list_sum in *. lia.
Qed.

Lemma list_sum_bound {A} (f : A -> nat) (l : list A) (n : nat) :
  (list_sum (map (fun x => S (f x)) l) <= S n)%nat ->
  forall x, In x l -> (f x <= n)%nat.
Proof.
  induction l as [|y l IH]; intros Hsum x Hin; [destruct Hin|].
  simpl in Hsum. destruct Hin as [<- | Hin]; [lia|].
  apply IH; [lia | exact Hin].
Qed.

Lemma size_le_length_bounded (n : nat) :
  forall v, (size v <= n)%nat -> (size v <= String.length (stringify v))%nat.
Proof.
  induction n as [|n IH]; intros v Hn.
  { destruct v; simpl in Hn; lia. }
  destruct v as [|[]|z|s|items|fields]; try (simpl; lia).
  - destruct (numberText_head z EmptyString) as [c [tail [Heq _]]].
    rewrite append_nil_r in Heq. cbn [stringify size]. rewrite Heq. simpl. lia.
  - change (stringify (JArray items))
      with (String (chr LBRACKET) (closeList RBRACKET (map stringify items))).
    cbn [size String.length]. apply le_n_S.
    apply (closeList_length size stringify).
    intros x Hx. apply IH.
    cbn [size] in Hn. apply (list_sum_bound size items n); [lia | exact Hx].
  - change (stringify (JObject fields))
      with (String (chr LBRACE) (closeList RBRACE (map memberText fields))).
    cbn [size String.length]. apply le_n_S.
    apply (closeList_length (fun kv => size (snd kv)) memberText).
    intros x Hx. unfold memberText. rewrite length_append. cbn [String.length].
    assert (size (snd x) <= String.length (stringify (snd x)))%nat; [|lia].
    apply IH. cbn [size] in Hn.
    apply (list_sum_bound (fun kv => size (snd kv)) fields n); [lia | exact Hx].
Qed.

Lemma size_le_length (v : JSValue) : (size v <= String.length (stringify v))%nat.
Proof. apply (size_le_length_bounded (size v)). lia. Qed.

(** Reading back what [JSON.stringify] wrote gives the value written. *)
Theorem parse_stringify (v : JSValue) : parse (stringify v) = Normal v.
Proof.
  unfold parse.
  rewrite <- (append_nil_r (stringify v)) at 2.
  rewrite (proj1 (parse_stringify_fuel (S (String.length (stringify v)))) v EmptyString).
  - reflexivity.
  - pose proof (size_le_length v). lia.
  - reflexivity.
Qed.

End JsonFacts.

(** ** The seven-day history and its average *)

Module InsightsFacts.
Import Insights.

Lemma floor_half_bounds (a : Z) (b : positive) :
  let t := (a * 2 + Zpos b) / (Zpos b * 2) in
  2 * Z.abs (t * Zpos b - a) <= Zpos b.
Proof.
  intros t.
  pose proof (Z.mul_div_le (a * 2 + Zpos b) (Zpos b * 2) ltac:(lia)) as Hlo.
  pose proof (Z.mul_succ_div_gt (a * 2 + Zpos b) (Zpos b * 2) ltac:(lia)) as Hhi.
  fold t in Hlo, Hhi. lia.
Qed.

Lemma toFixed1_nearest (s : Z) (n : positive) :
  2 * Z.abs (toFixed1 (s # n) * Zpos n - 10 * s) <= Zpos n.
Proof.
  unfold toFixed1, Qle_bool, Qfloor, Qplus, Qmult, Qopp. cbn [Qnum Qden].
  rewrite !Pos.mul_1_r, !Pos2Z.inj_mul.
  destruct (0 * Zpos n <=? s * 1).
  - pose proof (floor_half_bounds (s * 10) n) as H. cbv zeta in H.
    replace (s * 10 * 2 + 1 * Zpos n) with (s * 10 * 2 + Zpos n) by lia. lia.
  - pose proof (floor_half_bounds (- s * 10) n) as H. cbv zeta in H.
    replace (- s * 10 * 2 + 1 * Zpos n) with (- s * 10 * 2 + Zpos n) by lia. lia.
Qed.

Lemma fold_left_sum (data : list MoodEntry) (acc : Z) :
  fold_left (fun a d => a + value d) data acc = acc + sumValues data.
Proof.
  revert acc. induction data as [|d data IH]; intros acc; simpl; [lia|].
  rewrite IH. lia.
Qed.

(** C3: the average of an empty history is the fixed value 0, and the
    average of a history with at least one entry (of at most seven, as
    of any number) is a number with one decimal that lies within one
    twentieth of the arithmetic mean of the values and as near to the
    mean as any number with one decimal: the mean rounded to one
    decimal place. *)
Theorem calculateAverageMood_mean_one_decimal :
  calculateAverageMood [] = 0%Q /\
  forall e data,
    let h := e :: data in
    exists tenths : Z,
      calculateAverageMood h = tenths # 10 /\
      (Qabs ((tenths # 10) - mean h) <= 1 # 20)%Q /\
      forall k : Z, (Qabs ((tenths # 10) - mean h) <= Qabs ((k # 10) - mean h))%Q.
Proof.
  split; [reflexivity|].
  intros e data h.
  unfold calculateAverageMood. change (Nat.eqb (length h) 0) with false. cbv iota.
  rewrite fold_left_sum, Z.add_0_l. unfold parseFloat, mean.
  set (s := sumValues h). set (n := Pos.of_nat (length h)).
  exists (toFixed1 (s # n)). split; [reflexivity|].
  pose proof (toFixed1_nearest s n) as Hnear.
  set (t := toFixed1 (s # n)) in *.
  assert (Hdiff : forall x : Z,
             Qabs ((x # 10) - (s # n)) = (Z.abs (x * Zpos n - 10 * s) # (10 * n))).
  { intros x. unfold Qminus, Qplus, Qopp, Qabs. cbn [Qnum Qden]. f_equal. f_equal. lia. }
  split.
  - rewrite Hdiff. unfold Qle. cbn [Qnum Qden]. rewrite Pos2Z.inj_mul. lia.
  - intros k. rewrite !Hdiff. unfold Qle. cbn [Qnum Qden].
    apply Z.mul_le_mono_nonneg_r; [lia|].
    destruct (Z.eq_dec k t) as [->|Hkt]; [lia|].
    assert (k * Zpos n >= t * Zpos n + Zpos n \/ k * Zpos n <= t * Zpos n - Zpos n) by nia.
    lia.
Qed.

Lemma length_sliceLast {A} (n : nat) (l : list A) :
  (length (sliceLast n l) <= n)%nat.
Proof. unfold sliceLast. rewrite length_drop. lia. Qed.

Lemma sliceLast_short {A} (n : nat) (l : list A) :
  (length l <= n)%nat -> sliceLast n l = l.
Proof. intros H. unfold sliceLast. replace (length l - n)%nat with 0%nat by lia. reflexivity. Qed.

Lemma sliceLast_snoc {A} (n : nat) (l : list A) (x : A) :
  sliceLast (S n) (l ++ [x]) = sliceLast n l ++ [x].
Proof.
  unfold sliceLast. rewrite length_app. simpl.
  replace (length l + 1 - S n)%nat with (length l - n)%nat by lia.
  apply drop_app_le. lia.
Qed.

Lemma sliceLast_sliceLast {A} (n m : nat) (l : list A) :
  (n <= m)%nat -> sliceLast n (sliceLast m l) = sliceLast n l.
Proof.
  intros H. unfold sliceLast. rewrite drop_drop, length_drop. f_equal. lia.
Qed.

Lemma filter_id_notin (today : string) (l : list MoodEntry) :
  today ∉ (date <$> l) -> filter (fun d => date d <> today) l = l.
Proof.
  induction l as [|x l IH]; intros Hno; [reflexivity|].
  rewrite fmap_cons, not_elem_of_cons in Hno. destruct Hno as [Hx Hl].
  rewrite filter_cons_True by congruence. now rewrite IH.
Qed.

Lemma notin_filtered (today : string) (l : list MoodEntry) :
  today ∉ (date <$> filter (fun d => date d <> today) l).
Proof.
  intros Hin. apply list_elem_of_fmap in Hin. destruct Hin as [x [Hx Hin]].
  apply list_elem_of_filter in Hin. destruct Hin as [Hne _]. congruence.
Qed.

Lemma notin_sliceLast {A} (n : nat) (l : list A) (x : A) :
  x ∉ l -> x ∉ sliceLast n l.
Proof.
  intros Hno Hin. apply Hno. unfold sliceLast in Hin.
  exact (subseteq_drop _ _ _ Hin).
Qed.

Lemma NoDup_dates_filter (P : MoodEntry -> Prop) `{forall x, Decision (P x)}
    (l : list MoodEntry) :
  NoDup (date <$> l) -> NoDup (date <$> filter P l).
Proof.
  induction l as [|x l IH]; intros Hnd; [constructor|].
  rewrite fmap_cons in Hnd. apply NoDup_cons in Hnd. destruct Hnd as [Hx Hl].
  rewrite filter_cons. destruct (decide (P x)); [|now apply IH].
  rewrite fmap_cons. apply NoDup_cons. split; [|now apply IH].
  intros Hin. apply Hx. apply list_elem_of_fmap in Hin.
  destruct Hin as [y [Hy Hin]]. apply list_elem_of_filter in Hin.
  apply list_elem_of_fmap. exists y. tauto.
Qed.

Lemma NoDup_dates_sliceLast (n : nat) (l : list MoodEntry) :
  NoDup (date <$> l) -> NoDup (date <$> sliceLast n l).
Proof.
  intros Hnd. unfold sliceLast. rewrite fmap_drop.
  eapply sublist_NoDup; [exact Hnd | apply sublist_drop].
Qed.

Lemma recordToday_kept today e prev :
  recordToday today e prev = kept today prev ++ [e].
Proof. reflexivity. Qed.

Lemma kept_length today prev : (length (kept today prev) <= 6)%nat.
Proof. apply length_sliceLast. Qed.

Lemma kept_notin today prev : today ∉ (date <$> kept today prev).
Proof.
  unfold kept, sliceLast. rewrite fmap_drop. intros Hin.
  apply (notin_filtered today prev). exact (subseteq_drop _ _ _ Hin).
Qed.

Lemma kept_of_record today e prev :
  date e = today -> kept today (recordToday today e prev) = kept today prev.
Proof.
  intros He. rewrite recordToday_kept. unfold kept at 1.
  rewrite filter_app, filter_cons_False, filter_nil, app_nil_r by (intros Hne; congruence).
  rewrite filter_id_notin by apply kept_notin.
  apply sliceLast_short. apply kept_length.
Qed.

Lemma recordsFor_record today e prev :
  date e = today -> recordsFor today (recordToday today e prev) = [e].
Proof.
  intros He. rewrite recordToday_kept. unfold recordsFor.
  rewrite filter_app, filter_cons_True, filter_nil by exact He.
  replace (filter (fun x => date x = today) (kept today prev)) with (@nil MoodEntry);
    [reflexivity|].
  symmetry. pose proof (kept_notin today prev) as Hno.
  induction (kept today prev) as [|x l IH]; [reflexivity|].
  rewrite fmap_cons, not_elem_of_cons in Hno. destruct Hno as [Hx Hl].
  rewrite filter_cons_False by congruence. now apply IH.
Qed.

Lemma recordToday_NoDup today e prev :
  date e = today -> NoDup (date <$> prev) -> NoDup (date <$> recordToday today e prev).
Proof.
  intros He Hnd. rewrite recordToday_kept, fmap_app. apply NoDup_app.
  split; [|split].
  - unfold kept. apply NoDup_dates_sliceLast. now apply NoDup_dates_filter.
  - intros x Hx Hin. simpl in Hin. apply list_elem_of_singleton in Hin. subst x.
    rewrite He in Hx. exact (kept_notin today prev Hx).
  - apply NoDup_singleton.
Qed.

Lemma recordToday_length today e prev :
  (length (recordToday today e prev) <= 7)%nat.
Proof.
  rewrite recordToday_kept, length_app. simpl.
  pose proof (kept_length today prev). lia.
Qed.

Lemma recordAll_snoc es e :
  recordAll (es ++ [e]) = recordToday (date e) e (recordAll es).
Proof. unfold recordAll. now rewrite fold_left_app. Qed.

Lemma recordAll_invariant es :
  NoDup (date <$> recordAll es) /\ (length (recordAll es) <= 7)%nat.
Proof.
  induction es as [|e es IH] using rev_ind.
  - split; [constructor | simpl; lia].
  - rewrite recordAll_snoc. split.
    + apply recordToday_NoDup; [reflexivity | apply IH].
    + apply recordToday_length.
Qed.

Lemma recordAll_distinct es :
  NoDup (date <$> es) -> recordAll es = sliceLast 7 es.
Proof.
  induction es as [|e es IH] using rev_ind; intros Hnd; [reflexivity|].
  rewrite fmap_app in Hnd. apply NoDup_app in Hnd. destruct Hnd as [Hes [Hsep _]].
  rewrite recordAll_snoc, IH by exact Hes.
  unfold recordToday. rewrite filter_id_notin.
  - rewrite sliceLast_sliceLast by lia. now rewrite sliceLast_snoc.
  - intros Hin. unfold sliceLast in Hin. rewrite fmap_drop in Hin.
    apply (Hsep (date e)); [exact (subseteq_drop _ _ _ Hin)|].
    simpl. apply list_elem_of_singleton. reflexivity.
Qed.
Lemma recordsFor_absent (d : string) (l : list MoodEntry) :
  d ∉ (date <$> l) -> recordsFor d l = [].
Proof.
  induction l as [|x l IH]; intros Hno; [reflexivity|].
  rewrite fmap_cons, not_elem_of_cons in Hno. destruct Hno as [Hx Hl].
  unfold recordsFor. rewrite filter_cons_False by congruence. now apply IH.
Qed.

Lemma recordsFor_at_most_one (d : string) (l : list MoodEntry) :
  NoDup (date <$> l) -> (length (recordsFor d l) <= 1)%nat.
Proof.
  induction l as [|x l IH]; intros Hnd; [simpl; lia|].
  rewrite fmap_cons in Hnd. apply NoDup_cons in Hnd. destruct Hnd as [Hx Hl].
  unfold recordsFor. rewrite filter_cons. destruct (decide (date x = d)) as [Heq|Hne].
  - rewrite Heq in Hx. fold (recordsFor d l). rewrite (recordsFor_absent d l Hx).
    simpl. lia.
  - now apply IH.
Qed.

Lemma kept_subseteq (today : string) (prev : list MoodEntry) :
  kept today prev ⊆ prev.
Proof.
  intros x Hx. unfold kept, sliceLast in Hx.
  apply subseteq_drop in Hx. apply list_elem_of_filter in Hx. tauto.
Qed.

Lemma recordsFor_app (d : string) (l k : list MoodEntry) :
  recordsFor d (l ++ k) = recordsFor d l ++ recordsFor d k.
Proof. unfold recordsFor. apply filter_app. Qed.

Lemma recordAll_last_write (es : list MoodEntry) :
  forall d e,
    recordsFor d (recordAll es) = [e] ->
    exists es1 es2, es = es1 ++ e :: es2 /\ date e = d /\ d ∉ (date <$> es2).
Proof.
  induction es as [|x es IH] using rev_ind; intros d e Hrec; [discriminate|].
  rewrite recordAll_snoc, recordToday_kept, recordsFor_app in Hrec.
  destruct (decide (date x = d)) as [Heq|Hne].
  - rewrite <- Heq in Hrec.
    rewrite (recordsFor_absent (date x) _ (kept_notin (date x) (recordAll es))) in Hrec.
    unfold recordsFor in Hrec. rewrite filter_cons_True in Hrec by reflexivity.
    injection Hrec as <-. exists es, []. split; [reflexivity|]. split; [exact Heq|].
    apply not_elem_of_nil.
  - unfold recordsFor at 2 in Hrec.
    rewrite filter_cons_False, filter_nil, app_nil_r in Hrec by exact Hne.
    assert (Hin : e ∈ recordsFor d (kept (date x) (recordAll es)))
      by (rewrite Hrec; apply list_elem_of_singleton; reflexivity).
    apply list_elem_of_filter in Hin. destruct Hin as [Hd Hin].
    apply kept_subseteq in Hin.
    assert (Hin' : e ∈ recordsFor d (recordAll es))
      by (apply list_elem_of_filter; split; assumption).
    pose proof (recordsFor_at_most_one d (recordAll es)
                  (proj1 (recordAll_invariant es))) as Hone.
    destruct (recordsFor d (recordAll es)) as [|y [|z l]] eqn:Hall.
    + apply elem_of_nil in Hin'. destruct Hin'.
    + apply list_elem_of_singleton in Hin'. subst y.
      destruct (IH d e Hall) as [es1 [es2 [Hes [Hde Hno]]]].
      exists es1, (es2 ++ [x]). split; [|split].
      * rewrite Hes. now rewrite <- app_assoc.
      * exact Hde.
      * rewrite fmap_app. apply not_elem_of_app. split; [exact Hno|].
        simpl. intros Hx. apply list_elem_of_singleton in Hx. congruence.
    + simpl in Hone. lia.
Qed.

(** C5: the history holds at most one record for every date, and that
    record is the sample recorded last for the date. Recording the same
    sample twice leaves the history as recording it once does, with
    exactly one record for the date; recording [A] and then [B] for the
    same date leaves [B] as the record for the date, and the history
    that recording [B] alone gives. *)
Theorem recordToday_last_write_wins :
  (forall es d, (length (recordsFor d (recordAll es)) <= 1)%nat) /\
  (forall es d e,
      recordsFor d (recordAll es) = [e] ->
      exists es1 es2, es = es1 ++ e :: es2 /\ date e = d /\ d ∉ (date <$> es2)) /\
  (forall today A prev,
      date A = today ->
      recordToday today A (recordToday today A prev) = recordToday today A prev /\
      recordsFor today (recordToday today A (recordToday today A prev)) = [A]) /\
  (forall today A B prev,
      date A = today -> date B = today ->
      recordToday today B (recordToday today A prev) = recordToday today B prev /\
      recordsFor today (recordToday today B (recordToday today A prev)) = [B]).
Proof.
  split; [|split; [|split]].
  - intros es d. apply recordsFor_at_most_one. apply recordAll_invariant.
  - exact recordAll_last_write.
  - intros today A prev HA. split.
    + rewrite (recordToday_kept today A (recordToday today A prev)),
        kept_of_record by exact HA. reflexivity.
    + now apply recordsFor_record.
  - intros today A B prev HA HB. split.
    + rewrite (recordToday_kept today B), kept_of_record by exact HA. reflexivity.
    + now apply recordsFor_record.
Qed.

Lemma recordToday_last_write_wins_witness :
  date (mkMoodEntry "2026-11-03" "😔 Sad" 2) = "2026-11-03" /\
  date (mkMoodEntry "2026-11-03" "😊 Happy" 4) = "2026-11-03" /\
  recordsFor "2026-11-03"
    (recordToday "2026-11-03" (mkMoodEntry "2026-11-03" "😊 Happy" 4)
       (recordToday "2026-11-03" (mkMoodEntry "2026-11-03" "😔 Sad" 2)
          [mkMoodEntry "2026-11-02" "😌 Calm" 4]))
  = [mkMoodEntry "2026-11-03" "😊 Happy" 4].
Proof.
  split; [reflexivity|]. split; [reflexivity|].
  exact (proj2 (proj2 (proj2 (proj2 recordToday_last_write_wins))
                 "2026-11-03"
                 (mkMoodEntry "2026-11-03" "😔 Sad" 2)
                 (mkMoodEntry "2026-11-03" "😊 Happy" 4)
                 [mkMoodEntry "2026-11-02" "😌 Calm" 4]
                 eq_refl eq_refl)).
Defined.

(** *** Eviction *)

Lemma dateBefore_irrefl (d : string) : ~ dateBefore d d.
Proof.
  unfold dateBefore, String.ltb. intros H.
  pose proof (String.compare_antisym d d) as Hanti.
  destruct (String.compare d d); discriminate.
Qed.

Lemma ascending_NoDup (ds : list string) :
  StronglySorted dateBefore ds -> NoDup ds.
Proof.
  induction ds as [|d ds IH]; intros Hs; [constructor|].
  apply StronglySorted_inv in Hs. destruct Hs as [Hs Hd].
  apply NoDup_cons. split; [|now apply IH].
  intros Hin. rewrite Forall_forall in Hd.
  exact (dateBefore_irrefl d (Hd d Hin)).
Qed.

Lemma ascending_app (l k : list string) :
  StronglySorted dateBefore (l ++ k) ->
  forall x y, x ∈ l -> y ∈ k -> dateBefore x y.
Proof.
  induction l as [|a l IH]; intros Hs x y Hx Hy.
  - apply elem_of_nil in Hx. destruct Hx.
  - simpl in Hs. apply StronglySorted_inv in Hs. destruct Hs as [Hs Ha].
    apply elem_of_cons in Hx. destruct Hx as [-> | Hx].
    + rewrite Forall_forall in Ha. apply Ha. apply elem_of_app. now right.
    + now apply IH.
Qed.

(** C6: the history never holds more than seven entries, and never two
    for one date. Recording entries whose dates ascend leaves the last
    seven of them, every evicted entry being older than every entry
    kept; for nine such entries the history is the seven most recent,
    the two oldest being evicted. *)
Theorem recordAll_keeps_seven_most_recent :
  (forall today e prev, (length (recordToday today e prev) <= 7)%nat) /\
  (forall es, (length (recordAll es) <= 7)%nat /\ NoDup (date <$> recordAll es)) /\
  (forall es,
      StronglySorted dateBefore (date <$> es) ->
      recordAll es = sliceLast 7 es /\
      forall x y, x ∈ take (length es - 7) es -> y ∈ recordAll es ->
                  dateBefore (date x) (date y)) /\
  (forall es,
      StronglySorted dateBefore (date <$> es) -> length es = 9%nat ->
      recordAll es = drop 2 es /\ length (recordAll es) = 7%nat).
Proof.
  split; [exact recordToday_length|]. split.
  { intros es. destruct (recordAll_invariant es). now split. }
  assert (Hlast : forall es, StronglySorted dateBefore (date <$> es) ->
                             recordAll es = sliceLast 7 es).
  { intros es Hs. apply recordAll_distinct. now apply ascending_NoDup. }
  split.
  - intros es Hs. split; [now apply Hlast|].
    intros x y Hx Hy. rewrite (Hlast es Hs) in Hy. unfold sliceLast in Hy.
    rewrite <- (take_drop (length es - 7) es), fmap_app in Hs.
    apply (ascending_app _ _ Hs); apply list_elem_of_fmap; eauto.
  - intros es Hs Hlen. rewrite (Hlast es Hs). unfold sliceLast. rewrite Hlen.
    split; [reflexivity|]. change (9 - 7)%nat with 2%nat. rewrite length_drop. lia.
Qed.

Lemma recordAll_keeps_seven_most_recent_witness :
  let es := [ mkMoodEntry "2026-10-26" "😔 Sad" 2;
              mkMoodEntry "2026-10-27" "😡 Angry" 2;
              mkMoodEntry "2026-10-28" "😊 Happy" 4;
              mkMoodEntry "2026-10-29" "😰 Anxious" 3;
              mkMoodEntry "2026-10-30" "😌 Calm" 4;
              mkMoodEntry "2026-10-31" "🙂 Neutral" 4;
              mkMoodEntry "2026-11-01" "😊 Happy" 4;
              mkMoodEntry "2026-11-02" "😌 Calm" 4;
              mkMoodEntry "2026-11-03" "😔 Sad" 2 ] in
  StronglySorted dateBefore (date <$> es) /\
  length es = 9%nat /\
  (date <$> recordAll es) =
    [ "2026-10-28"; "2026-10-29"; "2026-10-30"; "2026-10-31";
      "2026-11-01"; "2026-11-02"; "2026-11-03" ].
Proof.
  intros es.
  assert (Hs : StronglySorted dateBefore (date <$> es))
    by (repeat (constructor; try reflexivity)).
  split; [exact Hs|]. split; [reflexivity|].
  rewrite (proj1 (proj2 (proj2 (proj2 recordAll_keeps_seven_most_recent)) es Hs eq_refl)).
  reflexivity.
Defined.

End InsightsFacts.

(** ** The chat screen: remote scores and corrupt storage *)

Module ZenoraFacts.
Import JsString Json JsonFacts LocalStorage Zenora.

Lemma asStrings_strings (ms : list string) : asStrings (map JString ms) = Some ms.
Proof. induction ms as [|m ms IH]; simpl; [reflexivity | now rewrite IH]. Qed.

Lemma moodDataFromJS_toJS (md : MoodData) :
  moodDataFromJS (moodDataToJS md) = Some md.
Proof.
  destruct md as [n t ms]. unfold moodDataToJS, moodDataFromJS.
  cbn [moodScore todayMood motivation].
  change (getProp "moodScore" _) with (Some (JNumber n)).
  change (getProp "todayMood" _) with (Some (JString t)).
  change (getProp "motivation" _) with (Some (JArray (map JString ms))).
  cbv iota. now rewrite asStrings_strings.
Qed.

Lemma getItem_saveEffect (md : MoodData) (ls : Storage) :
  getItem (saveEffect md ls) MOOD_KEY = Some (stringify (moodDataToJS md)).
Proof. unfold getItem, saveEffect, setItem. apply lookup_insert_eq. Qed.

Lemma saveEffect_saveEffect (md md' : MoodData) (ls : Storage) :
  saveEffect md (saveEffect md' ls) = saveEffect md ls.
Proof. unfold saveEffect, setItem. apply insert_insert_eq. Qed.

Lemma loadEffect_stored (ls : Storage) (v : JSValue) :
  getItem ls MOOD_KEY = Some (stringify v) ->
  truthy (stringify v) = true ->
  loadEffect ls = Normal (Some v).
Proof.
  intros Hget Htruthy. unfold loadEffect. rewrite Hget, Htruthy, parse_stringify.
  reflexivity.
Qed.

(** Whatever non-empty text [JSON.parse] rejects makes the load effect
    throw: nothing catches the exception. *)
Lemma loadEffect_throws (ls : Storage) (saved : string) (e : JsError) :
  getItem ls MOOD_KEY = Some saved ->
  truthy saved = true ->
  Json.parse saved = Throw e ->
  loadEffect ls = Throw e.
Proof.
  intros Hget Htruthy Hparse. unfold loadEffect.
  now rewrite Hget, Htruthy, Hparse.
Qed.

Lemma loadEffect_saveEffect (md : MoodData) (ls : Storage) :
  loadEffect (saveEffect md ls) = Normal (Some (moodDataToJS md)).
Proof.
  apply loadEffect_stored; [apply getItem_saveEffect | reflexivity].
Qed.

Lemma mount_saveEffect (md : MoodData) (ls : Storage) :
  mountZenora (saveEffect md ls) = Normal (md, saveEffect md ls).
Proof.
  unfold mountZenora. rewrite loadEffect_saveEffect. cbn [bindC].
  rewrite moodDataFromJS_toJS, !saveEffect_saveEffect. reflexivity.
Qed.

Lemma remoteScore_clamp (intensity : Z) :
  remoteScore intensity = clamp 0 100 (100 - intensity * 10).
Proof.
  unfold remoteScore, clamp.
  destruct (Z.ltb_spec (100 - intensity * 10) 0);
    destruct (Z.ltb_spec 100 (100 - intensity * 10)); lia.
Qed.

Lemma remoteScore_range (intensity : Z) : 0 <= remoteScore intensity <= 100.
Proof. unfold remoteScore. lia. Qed.

(** C7: for every integer intensity of a remote inference result the
    recorded score is [clamp(0, 100, 100 - intensity*10)] and lies in
    [0, 100]; it is the score of the state that the message handler sets
    and of the value that it stores, which reads back as that state. *)
Theorem remote_inference_score_clamped :
  (forall intensity,
      remoteScore intensity = clamp 0 100 (100 - intensity * 10) /\
      0 <= remoteScore intensity <= 100) /\
  (forall c content response ea moodData ls,
      let st' := handleSendMessage (String c content) (Reply response (Some ea))
                                   (moodData, ls) in
      moodScore (fst st') = clamp 0 100 (100 - intensity ea * 10) /\
      0 <= moodScore (fst st') <= 100 /\
      getItem (snd st') MOOD_KEY = Some (stringify (moodDataToJS (fst st'))) /\
      loadEffect (snd st') = Normal (Some (moodDataToJS (fst st'))) /\
      moodDataFromJS (moodDataToJS (fst st')) = Some (fst st')).
Proof.
  split.
  - intros intensity. split; [apply remoteScore_clamp | apply remoteScore_range].
  - intros c content response ea moodData ls st'.
    unfold handleSendMessage in st'. cbn [truthy] in st'. subst st'. cbn [fst snd].
    split; [apply remoteScore_clamp|]. split; [apply remoteScore_range|].
    split; [apply getItem_saveEffect|]. split; [apply loadEffect_saveEffect|].
    apply moodDataFromJS_toJS.
Qed.

(** C8: with content that is not JSON under the key "zenora-mood" the
    load effect of the chat screen throws [SyntaxError], and so does
    mounting the screen; the history screen, which reads the same key,
    throws as well. *)
Theorem zenora_mood_corrupt_storage_throws :
  loadEffect {[ "zenora-mood" := "not json" ]} = Throw SyntaxError /\
  mountZenora {[ "zenora-mood" := "not json" ]} = Throw SyntaxError /\
  (forall metricsJSON today,
      Insights.mountInsights metricsJSON today {[ "zenora-mood" := "not json" ]}
      = Throw SyntaxError).
Proof.
  split; [vm_compute; reflexivity|]. split; [vm_compute; reflexivity|].
  intros metricsJSON today. reflexivity.
Qed.

End ZenoraFacts.

(** ** What a reload brings back *)

Module PersistenceFacts.
Import JsString Json JsonFacts LocalStorage ZenoraFacts Session.

Lemma todayMoodOf_toJS (today : string) (md : Zenora.MoodData) :
  Insights.todayMoodOf today (Zenora.moodDataToJS md) =
  Normal (Insights.mkMoodEntry today (Zenora.todayMood md)
            (Insights.todayValue (Zenora.moodScore md))).
Proof. destruct md as [n t ms]. reflexivity. Qed.

Lemma insights_mount_saved (metricsJSON : Q -> Z -> Z -> Z -> string)
    (today : string) (md : Zenora.MoodData) (ls : Storage) :
  getItem ls "zenora-mood" = Some (stringify (Zenora.moodDataToJS md)) ->
  exists st' ls',
    Insights.mountInsights metricsJSON today ls = Normal (st', ls') /\
    Insights.moodData st' =
      [Insights.mkMoodEntry today (Zenora.todayMood md)
         (Insights.todayValue (Zenora.moodScore md))].
Proof.
  intros Hget. unfold Insights.mountInsights, Insights.updateFromStorage.
  rewrite Hget. change (truthy (stringify (Zenora.moodDataToJS md))) with true. cbv iota.
  rewrite parse_stringify. cbn [bindC]. rewrite todayMoodOf_toJS. cbn [bindC].
  eexists _, _. split; reflexivity.
Qed.

(** C9, as amended: what is written to the durable storage is the
    current mood data (score, label of today, motivations), under the key
    "zenora-mood", and reading it back reproduces it exactly, also
    through a reload of the chat screen. The seven-day history is not
    written: after a reload the history screen starts from the empty
    history and holds the single entry derived from the stored current
    mood, whatever the history was before. *)
Theorem current_mood_round_trip :
  (forall v, parse (stringify v) = Normal v) /\
  (forall md ls,
      Zenora.loadEffect (Zenora.saveEffect md ls) = Normal (Some (Zenora.moodDataToJS md)) /\
      Zenora.moodDataFromJS (Zenora.moodDataToJS md) = Some md /\
      Zenora.mountZenora (Zenora.saveEffect md ls) = Normal (md, Zenora.saveEffect md ls)) /\
  (forall metricsJSON today md ls,
      exists st' ls',
        Insights.mountInsights metricsJSON today (Zenora.saveEffect md ls) = Normal (st', ls') /\
        Insights.moodData st'
        = [Insights.mkMoodEntry today (Zenora.todayMood md)
             (Insights.todayValue (Zenora.moodScore md))]).
Proof.
  split; [exact parse_stringify|]. split.
  - intros md ls. split; [apply loadEffect_saveEffect|].
    split; [apply moodDataFromJS_toJS | apply mount_saveEffect].
  - intros metricsJSON today md ls.
    apply insights_mount_saved. apply getItem_saveEffect.
Qed.

(** C9 as stated fails: after two days of use the history holds two
    entries, and a reload over the storage of that moment brings back
    only one of them. *)
Lemma history_not_restored_by_reload :
  historyOf twoDays =
    Some [ Insights.mkMoodEntry "2026-11-02" "😔 Sad" 2;
           Insights.mkMoodEntry "2026-11-03" "😊 Happy" 4 ] /\
  historyOf (reload "2026-11-03" twoDays) =
    Some [ Insights.mkMoodEntry "2026-11-03" "😊 Happy" 4 ] /\
  historyOf (reload "2026-11-03" twoDays) <> historyOf twoDays.
Proof.
  assert (H1 : historyOf twoDays =
               Some [ Insights.mkMoodEntry "2026-11-02" "😔 Sad" 2;
                      Insights.mkMoodEntry "2026-11-03" "😊 Happy" 4 ])
    by (vm_compute; reflexivity).
  assert (H2 : historyOf (reload "2026-11-03" twoDays) =
               Some [ Insights.mkMoodEntry "2026-11-03" "😊 Happy" 4 ])
    by (vm_compute; reflexivity).
  split; [exact H1|]. split; [exact H2|]. rewrite H1, H2. discriminate.
Qed.

End PersistenceFacts.

(** ** The shared current mood *)

Module MoodContextFacts.
Import JsString Json JsonFacts LocalStorage MoodContext.

(** The provider, unlike the chat screen, guards its read: whatever the
    storage holds, the initial state is a value or [null]. *)
Lemma parse_completes (text : string) :
  (exists v, parse text = Normal v) \/ parse text = Throw SyntaxError.
Proof.
  unfold parse. destruct (parseValue _ text) as [[v rest]|]; [|now right].
  destruct (skipWs rest); [left; now exists v | now right].
Qed.

Lemma initialMood_never_throws (ls : Storage) :
  exists r, initialMood ls = Normal r.
Proof.
  unfold initialMood, getItem. destruct (ls !! STORAGE_KEY) as [raw|]; [|eauto].
  destruct (truthy raw); [|eauto].
  destruct (parse_completes raw) as [[v ->] | ->]; cbn [bindC tryCatch]; eauto.
Qed.

Lemma initialMood_corrupt (ls : Storage) (raw : string) (e : JsError) :
  getItem ls STORAGE_KEY = Some raw -> parse raw = Throw e ->
  initialMood ls = Normal None.
Proof.
  intros Hget Hparse. unfold initialMood. rewrite Hget.
  destruct (truthy raw); [|reflexivity]. now rewrite Hparse.
Qed.

Lemma getProp_at (m : MoodPayload) (t : string) :
  at_ m = Some t ->
  exists fields, payloadToJS m = JObject fields /\ getProp "at" fields = Some (JString t).
Proof.
  intros Hat. destruct m as [md [v|] [s|] a]; cbn [at_] in Hat; subst a;
    eexists; (split; [reflexivity|]); reflexivity.
Qed.

(** C10: the state that [setMood] sets always carries a timestamp: the
    one of the payload when it has one, the current time when it has
    none; the other members are those of the payload. The record that
    the provider then stores carries it too: read back, it is the object
    of that state, with the timestamp as its member [at]. *)
Theorem setMood_defines_timestamp (now : string) (m : MoodPayload) :
  exists p,
    setMood now m = Some p /\
    at_ p = Some (default now (at_ m)) /\
    (at_ m = None -> at_ p = Some now) /\
    (forall t, at_ m = Some t -> at_ p = Some t) /\
    mood p = mood m /\ value p = value m /\ source p = source m /\
    (forall ls,
        exists text fields,
          getItem (persistEffect (setMood now m) ls) STORAGE_KEY = Some text /\
          parse text = Normal (JObject fields) /\
          payloadToJS p = JObject fields /\
          getProp "at" fields = Some (JString (default now (at_ m)))).
Proof.
  eexists. split; [reflexivity|]. cbn [at_ mood value source].
  split; [reflexivity|]. split; [now intros ->|]. split; [now intros t ->|].
  split; [reflexivity|]. split; [reflexivity|]. split; [reflexivity|].
  intros ls.
  destruct (getProp_at (mkMoodPayload (mood m) (value m) (source m)
                          (Some (default now (at_ m))))
                       (default now (at_ m)) eq_refl) as [fields [Hjs Hat]].
  exists (stringify (JObject fields)), fields.
  split; [|split; [apply parse_stringify | split; [exact Hjs | exact Hat]]].
  unfold setMood, persistEffect, getItem, setItem. rewrite Hjs.
  apply lookup_insert_eq.
Qed.

Lemma setMood_defines_timestamp_witness :
  at_ (mkMoodPayload "good" (Some 4) (Some "manual") None) = None /\
  exists p,
    setMood "2026-11-03T09:00:00.000Z"
      (mkMoodPayload "good" (Some 4) (Some "manual") None) = Some p /\
    at_ p = Some "2026-11-03T09:00:00.000Z".
Proof.
  split; [reflexivity|].
  destruct (setMood_defines_timestamp "2026-11-03T09:00:00.000Z"
              (mkMoodPayload "good" (Some 4) (Some "manual") None))
    as [p [Hset [_ [Hnone _]]]].
  exists p. split; [exact Hset | exact (Hnone eq_refl)].
Defined.

End MoodContextFacts.

(** ** The chat screen: what a message leaves behind *)

Module MessageFacts.
Import JsString Json JsonFacts LocalStorage Zenora ClassifierFacts ZenoraFacts.





Lemma handleSendMessage_state (c : ascii) (content : string) (reply : RemoteReply)
    (moodData : MoodData) (ls : Storage) :
  exists md',
    handleSendMessage (String c content) reply (moodData, ls)
    = (md', saveEffect md' ls) /\
    md' = match reply with
          | ReplyError => applyLocal (String c content) moodData
          | Reply _ (Some ea) => remoteMood moodData ea
          | Reply response None =>
              applyLocal response (applyLocal (String c content) moodData)
          end.
Proof.
  unfold handleSendMessage. cbn [truthy].
  destruct reply as [|response [ea|]]; eexists; (split; [|reflexivity]).
  - reflexivity.
  - change (setItem (saveEffect (applyLocal (String c content) moodData) ls) MOOD_KEY
              (stringify (moodDataToJS (remoteMood moodData ea))))
      with (saveEffect (remoteMood moodData ea)
              (saveEffect (applyLocal (String c content) moodData) ls)).
    now rewrite !saveEffect_saveEffect.
  - now rewrite saveEffect_saveEffect.
Qed.

(** X1: once a message that is not empty has been handled, whatever the
    service answered, the storage holds the JSON of the mood state under
    the key "zenora-mood", and mounting the chat screen anew over that
    storage gives back exactly that state and leaves the storage as it
    is. *)
Theorem handleSendMessage_survives_reload :
  forall c content reply moodData ls,
    let st' := handleSendMessage (String c content) reply (moodData, ls) in
    getItem (snd st') MOOD_KEY = Some (stringify (moodDataToJS (fst st'))) /\
    mountZenora (snd st') = Normal st'.
Proof.
  intros c content reply moodData ls st'.
  destruct (handleSendMessage_state c content reply moodData ls) as [md' [Hst _]].
  subst st'. rewrite Hst. cbn [fst snd].
  split; [apply getItem_saveEffect | apply mount_saveEffect].
Qed.



(** X3: the history screen can always read what the chat screen has
    stored: over a storage in which the save effect has written a mood,
    a run of [updateFromStorage] completes, whatever the state of the
    screen, and records for today the stored label with the stored score
    rescaled to 0..5; it leaves the stored mood and the manual metrics as
    they are. *)
Theorem updateFromStorage_reads_saved_mood :
  forall metricsJSON today md st ls,
    exists st' ls',
      Insights.updateFromStorage metricsJSON today (st, saveEffect md ls)
      = Normal (st', ls') /\
      Insights.moodData st'
      = Insights.recordToday today
          (Insights.mkMoodEntry today (todayMood md) (Insights.todayValue (moodScore md)))
          (Insights.moodData st) /\
      Insights.recordsFor today (Insights.moodData st')
      = [Insights.mkMoodEntry today (todayMood md) (Insights.todayValue (moodScore md))] /\
      getItem ls' MOOD_KEY = Some (stringify (moodDataToJS md)) /\
      Insights.streak st' = Insights.streak st /\
      Insights.timePracticed st' = Insights.timePracticed st /\
      Insights.exercises st' = Insights.exercises st.
Proof.
  intros metricsJSON today md st ls.
  unfold Insights.updateFromStorage.
  change (getItem (saveEffect md ls) "zenora-mood")
    with (getItem (saveEffect md ls) MOOD_KEY).
  rewrite getItem_saveEffect.
  change (truthy (stringify (moodDataToJS md))) with true. cbv iota.
  rewrite parse_stringify. cbn [bindC].
  rewrite PersistenceFacts.todayMoodOf_toJS. cbn [bindC].
  eexists _, _. split; [reflexivity|]. cbn [Insights.moodData Insights.streak
    Insights.timePracticed Insights.exercises].
  split; [reflexivity|].
  split; [now apply InsightsFacts.recordsFor_record|].
  split; [|now repeat split].
  unfold getItem, setItem. rewrite lookup_insert_ne by discriminate.
  apply getItem_saveEffect.
Qed.

End MessageFacts.

(** ** Filtering by index *)

Module IndexFacts.
Import JsText.

Lemma filterIndex_past {A} (l : list A) :
  forall i k, (i < k)%nat -> filterIndex (fun idx => negb (Nat.eqb idx i)) k l = l.
Proof.
  induction l as [|x l IH]; intros i k Hk; [reflexivity|].
  cbn [filterIndex]. destruct (Nat.eqb_spec k i) as [E|_]; [lia|].
  cbn [negb]. f_equal. apply IH. lia.
Qed.

(** Keeping every index but [i] deletes the element at [i]. *)
Lemma filterIndex_delete {A} (l : list A) :
  forall base i,
    filterIndex (fun idx => negb (Nat.eqb idx (base + i))) base l = delete i l.
Proof.
  induction l as [|x l IH]; intros base i; [reflexivity|].
  cbn [filterIndex]. destruct i as [|i].
  - rewrite Nat.add_0_r, Nat.eqb_refl. cbn [negb delete list_delete].
    apply filterIndex_past. lia.
  - destruct (Nat.eqb_spec base (base + S i)) as [E|_]; [lia|].
    cbn [negb delete list_delete]. f_equal.
    replace (base + S i)%nat with (S base + i)%nat by lia. apply IH.
Qed.

Lemma filterIndex_delete0 {A} (i : nat) (l : list A) :
  filterIndex (fun idx => negb (Nat.eqb idx i)) 0 l = delete i l.
Proof. apply (filterIndex_delete l 0 i). Qed.

Lemma delete_out_of_range {A} (i : nat) (l : list A) :
  (length l <= i)%nat -> delete i l = l.
Proof.
  revert i. induction l as [|x l IH]; intros i Hi; [now destruct i|].
  destruct i as [|i]; cbn [length] in Hi; [lia|].
  cbn [delete list_delete]. f_equal. apply IH. lia.
Qed.

Lemma delete_snoc {A} (l : list A) (x : A) : delete (length l) (l ++ [x]) = l.
Proof.
  induction l as [|y l IH]; [reflexivity|].
  cbn [length app delete list_delete]. f_equal. exact IH.
Qed.

End IndexFacts.

(** ** The motivation board of the chat screen *)

Module ZenoraBoardFacts.
Import JsString JsText LocalStorage Zenora ZenoraBoard IndexFacts.

(** X4: [deleteMotivation(i)] removes exactly the motivation at the
    index [i]: the ones before it and the ones after it stay, in their
    order, and the list is one shorter; an index beyond the end changes
    nothing. The score and the label of the mood are not touched. *)
Theorem deleteMotivation_removes_one :
  forall i moodData,
    moodScore (deleteMotivation i moodData) = moodScore moodData /\
    todayMood (deleteMotivation i moodData) = todayMood moodData /\
    motivation (deleteMotivation i moodData)
    = take i (motivation moodData) ++ drop (S i) (motivation moodData) /\
    ((i < length (motivation moodData))%nat ->
     S (length (motivation (deleteMotivation i moodData)))
     = length (motivation moodData)) /\
    ((length (motivation moodData) <= i)%nat -> deleteMotivation i moodData = moodData).
Proof.
  intros i [s t ms]. unfold deleteMotivation. cbn [moodScore todayMood motivation].
  rewrite filterIndex_delete0.
  split; [reflexivity|]. split; [reflexivity|].
  split; [apply delete_take_drop|]. split.
  - intros Hi. rewrite length_delete; [lia|]. now apply lookup_lt_is_Some.
  - intros Hi. now rewrite delete_out_of_range.
Qed.

Lemma deleteMotivation_removes_one_witness :
  (1 < length (motivation initialMoodData))%nat /\
  motivation (deleteMotivation 1 initialMoodData)
  = [ "Keep growing every day!"; "Small steps make a big difference." ].
Proof.
  split; [cbn; lia|].
  rewrite (proj1 (proj2 (proj2 (deleteMotivation_removes_one 1 initialMoodData)))).
  reflexivity.
Defined.

(** X5: a motivation that has just been added can be taken back: after
    [addMotivation], deleting the index that was the length of the list
    gives the mood data from before, whatever the text. A text that is
    blank is not added and stays in the input field; any other text is
    appended as it was typed, surrounding white space included, and the
    input field is cleared. *)
Theorem addMotivation_then_delete :
  forall moodData text,
    deleteMotivation (length (motivation moodData)) (fst (addMotivation (moodData, text)))
    = moodData /\
    (isBlank text = true -> addMotivation (moodData, text) = (moodData, text)) /\
    (isBlank text = false ->
     motivation (fst (addMotivation (moodData, text))) = motivation moodData ++ [text] /\
     snd (addMotivation (moodData, text)) = EmptyString).
Proof.
  intros [s t ms] text. unfold addMotivation. cbn [motivation].
  destruct (isBlank text) eqn:Hblank; cbn [fst snd].
  - split; [|split; [reflexivity | discriminate]].
    unfold deleteMotivation. cbn [moodScore todayMood motivation].
    now rewrite filterIndex_delete0, delete_out_of_range.
  - split; [|split; [discriminate | now split]].
    unfold deleteMotivation. cbn [moodScore todayMood motivation].
    now rewrite filterIndex_delete0, delete_snoc.
Qed.

Lemma addMotivation_then_delete_witness :
  isBlank "  be kind  " = false /\
  motivation (fst (addMotivation (initialMoodData, "  be kind  ")))
  = motivation initialMoodData ++ ["  be kind  "].
Proof.
  split; [reflexivity|].
  exact (proj1 (proj2 (proj2 (addMotivation_then_delete initialMoodData "  be kind  "))
                  eq_refl)).
Defined.

End ZenoraBoardFacts.

(** ** The history screen: values, colours, bounds and the poll *)

Module InsightsViewFacts.
Import JsString JsStringFacts JsText Json JsonFacts LocalStorage.
Import Insights InsightsFacts InsightsView MessageFacts.






Lemma sumValues_bounds (lo hi : Z) (data : list MoodEntry) :
  Forall (fun d => lo <= value d <= hi) data ->
  lo * Z.of_nat (length data) <= sumValues data <= hi * Z.of_nat (length data).
Proof.
  induction 1 as [|d data Hd _ IH]; cbn [sumValues fold_right length].
  - lia.
  - fold (sumValues data). rewrite Nat2Z.inj_succ. lia.
Qed.

(** X8: the average of a history that is not empty lies between the
    bounds of its values: when every value is between [lo] and [hi], so
    is the average, rounding included. In particular a history of values
    from 0 to 5, as the rescaled scores are, has an average from 0 to
    5. *)
Theorem calculateAverageMood_between :
  forall lo hi data,
    data <> [] ->
    Forall (fun d => lo <= value d <= hi) data ->
    (inject_Z lo <= calculateAverageMood data <= inject_Z hi)%Q.
Proof.
  intros lo hi data Hne Hall.
  destruct data as [|e data]; [congruence|]. clear Hne.
  pose proof (sumValues_bounds lo hi (e :: data) Hall) as Hsum.
  unfold calculateAverageMood.
  change (Nat.eqb (length (e :: data)) 0) with false. cbv iota.
  rewrite fold_left_sum, Z.add_0_l. unfold parseFloat.
  set (s := sumValues (e :: data)) in *.
  set (n := Pos.of_nat (length (e :: data))).
  assert (Hn : Z.of_nat (length (e :: data)) = Zpos n).
  { unfold n. rewrite <- positive_nat_Z, Nat2Pos.id by discriminate. reflexivity. }
  rewrite Hn in Hsum.
  pose proof (toFixed1_nearest s n) as Hnear.
  set (t := toFixed1 (s # n)) in *.
  unfold Qle, inject_Z. cbn [Qnum Qden].
  split.
  - assert (10 * lo <= t); [|lia].
    destruct (Z_le_gt_dec (10 * lo) t) as [|Hgt]; [assumption|].
    assert (t * Zpos n <= (10 * lo - 1) * Zpos n) by nia. nia.
  - assert (t <= 10 * hi); [|lia].
    destruct (Z_le_gt_dec t (10 * hi)) as [|Hgt]; [assumption|].
    assert ((10 * hi + 1) * Zpos n <= t * Zpos n) by nia. nia.
Qed.

Lemma calculateAverageMood_between_witness :
  [mkMoodEntry "2026-11-02" "😔 Sad" 2; mkMoodEntry "2026-11-03" "😊 Happy" 5] <> [] /\
  Forall (fun d => 0 <= value d <= 5)
    [mkMoodEntry "2026-11-02" "😔 Sad" 2; mkMoodEntry "2026-11-03" "😊 Happy" 5] /\
  (inject_Z 0 <=
   calculateAverageMood
     [mkMoodEntry "2026-11-02" "😔 Sad" 2; mkMoodEntry "2026-11-03" "😊 Happy" 5]
   <= inject_Z 5)%Q.
Proof.
  assert (Hne : [mkMoodEntry "2026-11-02" "😔 Sad" 2;
                 mkMoodEntry "2026-11-03" "😊 Happy" 5] <> []) by discriminate.
  assert (Hall : Forall (fun d => 0 <= value d <= 5)
                   [mkMoodEntry "2026-11-02" "😔 Sad" 2;
                    mkMoodEntry "2026-11-03" "😊 Happy" 5])
    by (repeat constructor; cbn; lia).
  split; [exact Hne|]. split; [exact Hall|].
  exact (calculateAverageMood_between 0 5 _ Hne Hall).
Defined.

Lemma todayMoodOf_date (today : string) (parsed : JSValue) (e : MoodEntry) :
  todayMoodOf today parsed = Normal e -> date e = today.
Proof.
  unfold todayMoodOf. destruct parsed as [| | | | |fields]; try discriminate.
  destruct (getProp "moodScore" fields) as [[| |n| | |]|]; try discriminate.
  destruct (getProp "todayMood" fields) as [[| | |m| |]|]; try discriminate.
  now intros [= <-].
Qed.

Lemma recordToday_idempotent (today : string) (e : MoodEntry) (prev : list MoodEntry) :
  date e = today ->
  recordToday today e (recordToday today e prev) = recordToday today e prev.
Proof.
  intros He. rewrite (recordToday_kept today e (recordToday today e prev)).
  now rewrite kept_of_record.
Qed.

(** X9: the poll is idempotent: a run of [updateFromStorage] that has
    completed, run again at the same date over the state and the storage
    it has left, changes neither. *)
Theorem updateFromStorage_idempotent :
  forall metricsJSON today st ls st1 ls1,
    updateFromStorage metricsJSON today (st, ls) = Normal (st1, ls1) ->
    updateFromStorage metricsJSON today (st1, ls1) = Normal (st1, ls1).
Proof.
  intros metricsJSON today st ls st1 ls1 Hrun.
  unfold updateFromStorage in Hrun.
  destruct (getItem ls "zenora-mood") as [saved|] eqn:Hget.
  2:{ injection Hrun as <- <-. unfold updateFromStorage. now rewrite Hget. }
  destruct (truthy saved) eqn:Htruthy.
  2:{ injection Hrun as <- <-. unfold updateFromStorage. now rewrite Hget, Htruthy. }
  destruct (Json.parse saved) as [parsed| |] eqn:Hparse; try discriminate.
  cbn [bindC] in Hrun.
  destruct (todayMoodOf today parsed) as [e| |] eqn:He; try discriminate.
  cbn [bindC] in Hrun. injection Hrun as <- <-.
  unfold updateFromStorage.
  assert (Hget' : getItem (setItem ls "insightsData"
                     (metricsJSON (calculateAverageMood (recordToday today e (moodData st)))
                        (streak st) (timePracticed st) (exercises st))) "zenora-mood"
                  = Some saved).
  { unfold getItem, setItem in *. now rewrite lookup_insert_ne by discriminate. }
  rewrite Hget', Htruthy, Hparse. cbn [bindC]. rewrite He. cbn [bindC].
  cbn [moodData streak timePracticed exercises].
  rewrite (recordToday_idempotent today e (moodData st) (todayMoodOf_date _ _ _ He)).
  unfold setItem. now rewrite insert_insert_eq.
Qed.

Lemma updateFromStorage_idempotent_witness :
  exists st1 ls1,
    updateFromStorage metricsText "2026-11-03"
      (initialState, Zenora.saveEffect Zenora.initialMoodData ∅) = Normal (st1, ls1) /\
    updateFromStorage metricsText "2026-11-03" (st1, ls1) = Normal (st1, ls1).
Proof.
  destruct (PersistenceFacts.insights_mount_saved metricsText "2026-11-03"
              Zenora.initialMoodData (Zenora.saveEffect Zenora.initialMoodData ∅)
              (ZenoraFacts.getItem_saveEffect Zenora.initialMoodData ∅))
    as [st1 [ls1 [Hrun _]]].
  exists st1, ls1. split; [exact Hrun|].
  exact (updateFromStorage_idempotent metricsText "2026-11-03" _ _ st1 ls1 Hrun).
Defined.



End InsightsViewFacts.

(** ** The streak of the dashboard, from the rows of the query *)

Module DashboardFetchFacts.
Import Dashboard StreakFacts DashboardFetch.

Lemma uniqueDates_from (days : list Day) :
  forall seen,
    StronglySorted Z.gt seen ->
    StronglySorted Z.ge days ->
    Forall (fun a => Forall (fun d => a >= d) days) seen ->
    StronglySorted Z.gt (fold_left setAdd days seen) /\
    (forall d, d ∈ fold_left setAdd days seen <-> d ∈ seen \/ d ∈ days).
Proof.
  induction days as [|d days IH]; intros seen Hseen Hdays Hge; cbn [fold_left].
  - split; [exact Hseen|]. intros d. rewrite elem_of_nil. tauto.
  - apply StronglySorted_inv in Hdays. destruct Hdays as [Hdays Hd].
    assert (Hge' : Forall (fun a => Forall (fun x => a >= x) days) seen).
    { eapply Forall_impl; [exact Hge|]. cbv beta. intros a Ha.
      now apply Forall_cons in Ha. }
    assert (Hadd : setAdd seen d = if decide (d ∈ seen) then seen else seen ++ [d])
      by reflexivity.
    rewrite Hadd. clear Hadd. destruct (decide (d ∈ seen)) as [Hin|Hnin].
    + destruct (IH seen Hseen Hdays Hge') as [Hs Hm]. split; [exact Hs|].
      intros x. rewrite Hm, elem_of_cons. split; [tauto|].
      intros [H | [-> | H]]; tauto.
    + assert (Hs1 : StronglySorted Z.gt (seen ++ [d])).
      { clear IH Hge'. induction seen as [|a seen IHs]; cbn.
        - repeat constructor.
        - apply StronglySorted_inv in Hseen. destruct Hseen as [Hseen Ha].
          apply Forall_cons in Hge. destruct Hge as [Had Hge].
          apply not_elem_of_cons in Hnin. destruct Hnin as [Hne Hnin].
          constructor; [now apply IHs|].
          apply Forall_app. split; [exact Ha|].
          constructor; [|constructor].
          apply Forall_cons in Had. destruct Had as [Had _]. lia. }
      assert (Hge1 : Forall (fun a => Forall (fun x => a >= x) days) (seen ++ [d])).
      { apply Forall_app. split; [exact Hge'|]. constructor; [exact Hd|constructor]. }
      destruct (IH (seen ++ [d]) Hs1 Hdays Hge1) as [Hs Hm]. split; [exact Hs|].
      intros x. rewrite Hm, elem_of_app, list_elem_of_singleton, elem_of_cons. tauto.
Qed.

Lemma uniqueDates_sorted (rows : list Day) :
  newestFirst rows ->
  mostRecentFirst (uniqueDates rows) /\
  (forall d, In d (uniqueDates rows) <-> In d rows).
Proof.
  intros Hrows.
  destruct (uniqueDates_from rows [] (SSorted_nil _) Hrows (List.Forall_nil _)) as [Hs Hm].
  split; [exact Hs|]. intros d. rewrite <- !list_elem_of_In.
  fold (uniqueDates rows) in Hm. rewrite Hm, elem_of_nil. tauto.
Qed.

(** X11: the streak that [fetchStreak] sets. For the rows of the query,
    newest first, with any number of rows on a day and none after today,
    the streak is the number of consecutive days ending at today that
    have a row: each of the [n] days from today back has one and the
    next has none. So it depends on the days that have a row only, not
    on how many rows a day has; and when the query fails or gives no
    data the streak stays what it was. *)
Theorem fetchStreak_consecutive_days :
  (forall today rows streak,
      newestFirst rows ->
      Forall (fun d => d <= today) rows ->
      let n := fetchStreak today (Some rows) streak in
      0 <= n /\
      (forall i, 0 <= i < n -> In (today - i) rows) /\
      ~ In (today - n) rows) /\
  (forall today rows rows' streak streak',
      newestFirst rows -> newestFirst rows' ->
      Forall (fun d => d <= today) rows ->
      (forall d, In d rows <-> In d rows') ->
      fetchStreak today (Some rows) streak = fetchStreak today (Some rows') streak') /\
  (forall today streak, fetchStreak today None streak = streak).
Proof.
  assert (Hchar : forall today rows streak,
      newestFirst rows ->
      Forall (fun d => d <= today) rows ->
      let n := fetchStreak today (Some rows) streak in
      0 <= n /\
      (forall i, 0 <= i < n -> In (today - i) rows) /\
      ~ In (today - n) rows).
  { intros today rows streak Hrows Hle. cbv zeta. unfold fetchStreak.
    destruct (uniqueDates_sorted rows Hrows) as [Hs Hm].
    assert (Hle' : Forall (fun d => d <= today) (uniqueDates rows)).
    { rewrite Forall_forall in Hle |- *. intros d Hd.
      apply Hle. apply list_elem_of_In, Hm, list_elem_of_In, Hd. }
    destruct (streakLoop_spec (uniqueDates rows) today 0 Hs Hle') as [Hn [Hin Hout]].
    fold (calculateStreak today (uniqueDates rows)) in Hn, Hin, Hout.
    set (n := calculateStreak today (uniqueDates rows)) in *.
    replace (n - 0) with n in * by lia.
    split; [exact Hn|]. split.
    - intros i Hi. apply Hm, Hin, Hi.
    - intros H. apply Hout, Hm, H. }
  split; [exact Hchar|]. split; [|reflexivity].
  intros today rows rows' streak streak' Hrows Hrows' Hle Hsame.
  assert (Hle' : Forall (fun d => d <= today) rows').
  { rewrite Forall_forall in Hle |- *. intros d Hd.
    apply Hle. apply list_elem_of_In, Hsame, list_elem_of_In, Hd. }
  destruct (Hchar today rows streak Hrows Hle) as [Hn [Hin Hout]].
  destruct (Hchar today rows' streak' Hrows' Hle') as [Hn' [Hin' Hout']].
  set (n := fetchStreak today (Some rows) streak) in *.
  set (n' := fetchStreak today (Some rows') streak') in *.
  destruct (Z.lt_total n n') as [Hlt | [Heq | Hgt]]; [|exact Heq|].
  - exfalso. apply Hout, Hsame, Hin'. lia.
  - exfalso. apply Hout', Hsame, Hin. lia.
Qed.

Lemma fetchStreak_consecutive_days_witness :
  newestFirst [100; 100; 99; 99; 99; 97] /\
  Forall (fun d => d <= 100) [100; 100; 99; 99; 99; 97] /\
  fetchStreak 100 (Some [100; 100; 99; 99; 99; 97]) 0 = 2 /\
  ~ In (100 - fetchStreak 100 (Some [100; 100; 99; 99; 99; 97]) 0)
       [100; 100; 99; 99; 99; 97].
Proof.
  assert (Hs : newestFirst [100; 100; 99; 99; 99; 97]).
  { unfold newestFirst. repeat constructor; discriminate. }
  assert (Hl : Forall (fun d => d <= 100) [100; 100; 99; 99; 99; 97]).
  { repeat constructor; lia. }
  split; [exact Hs|]. split; [exact Hl|]. split; [reflexivity|].
  exact (proj2 (proj2 (proj1 fetchStreak_consecutive_days 100 _ 0 Hs Hl))).
Defined.

End DashboardFetchFacts.

(** ** The mood provider across page loads *)

Module MoodProviderFacts.
Import JsString Json JsonFacts LocalStorage MoodContext MoodContextFacts MoodProvider.

Lemma payloadFromJS_toJS (p : MoodPayload) : payloadFromJS (payloadToJS p) = Some p.
Proof. destruct p as [m [v|] [s|] [a|]]; reflexivity. Qed.

Lemma truthy_stringify_payload (p : MoodPayload) :
  truthy (stringify (payloadToJS p)) = true.
Proof. reflexivity. Qed.

Lemma persistEffect_last (m1 m2 : option MoodPayload) (ls : Storage) :
  persistEffect m2 (persistEffect m1 ls) = persistEffect m2 ls.
Proof.
  unfold persistEffect, setItem, removeItem.
  destruct m1 as [p1|], m2 as [p2|].
  - apply insert_insert_eq.
  - apply delete_insert_eq.
  - apply insert_delete_eq.
  - apply delete_delete_eq.
Qed.

(** X12: what the provider stores is what the next page load starts
    from. After a mood has been set and persisted, the initial state of
    the next load is the object of that mood, which read at the type of
    the payload is the mood itself, each optional member present or
    absent as it was; after the mood has been cleared, the next load
    starts from [null]. The effect touches no key but its own, and of
    several changes in a row only the last is in the storage. *)
Theorem provider_reload :
  (forall p ls,
      initialMood (persistEffect (Some p) ls) = Normal (Some (payloadToJS p)) /\
      payloadFromJS (payloadToJS p) = Some p) /\
  (forall ls, initialMood (persistEffect clearMood ls) = Normal None) /\
  (forall mood ls k, k <> STORAGE_KEY -> getItem (persistEffect mood ls) k = getItem ls k) /\
  (forall changes mood ls,
      provide (changes ++ [mood]) ls = persistEffect mood ls).
Proof.
  split; [|split; [|split]].
  - intros p ls. split; [|apply payloadFromJS_toJS].
    unfold initialMood, persistEffect, getItem, setItem.
    rewrite lookup_insert_eq, truthy_stringify_payload, parse_stringify. reflexivity.
  - intros ls. unfold initialMood, persistEffect, clearMood, getItem, removeItem.
    now rewrite lookup_delete_eq.
  - intros mood ls k Hk. unfold persistEffect, getItem, setItem, removeItem.
    destruct mood as [p|].
    + now rewrite lookup_insert_ne by congruence.
    + now rewrite lookup_delete_ne by congruence.
  - intros changes mood. unfold provide.
    induction changes as [|c changes IH]; intros ls; [reflexivity|].
    cbn [app fold_left]. rewrite IH. apply persistEffect_last.
Qed.

Lemma provider_reload_witness :
  ("insightsData" : string) <> STORAGE_KEY /\
  getItem (persistEffect clearMood {[ "insightsData" := "{}" ]}) "insightsData"
  = Some "{}".
Proof.
  assert (Hk : ("insightsData" : string) <> STORAGE_KEY) by discriminate.
  split; [exact Hk|].
  exact (proj1 (proj2 (proj2 provider_reload)) clearMood
           {[ "insightsData" := "{}" ]} "insightsData" Hk).
Defined.


End MoodProviderFacts.

(** ** The progress row of the exercises screen *)

Module ExercisesFacts.
Import JsString JsText Dashboard Exercises.

Lemma dayChanges_nonneg (days : list Day) : forall last, 0 <= dayChanges last days.
Proof.
  induction days as [|d days IH]; intros last; cbn [dayChanges]; [lia|].
  specialize (IH d). destruct (d =? last); lia.
Qed.

Lemma handleExerciseComplete_row (today : Day) (duration e m s : Z) (last : option Day) :
  handleExerciseComplete today duration (Some (mkUserProgress e m s last))
  = mkUserProgress (e + 1) (m + duration)
      ((if s =? 0 then 1 else s) + (if default today last =? today then 0 else 1))
      (Some today).
Proof.
  unfold handleExerciseComplete, orNumber. cbn. unfold id.
  destruct last as [l|]; cbn; rewrite ?Z.eqb_refl;
    destruct (Z.eqb_spec e 0), (Z.eqb_spec m 0), (Z.eqb_spec s 0);
    try destruct (l =? today); f_equal; lia.
Qed.

Lemma last_cons (d l : Day) (days : list Day) :
  List.last (d :: days) l = List.last days d.
Proof.
  revert d l. induction days as [|x days IH]; intros d l; [reflexivity|].
  change (List.last (d :: x :: days) l) with (List.last (x :: days) l).
  now rewrite (IH x l), (IH x d).
Qed.

Lemma completeAll_from (duration : Z) (days : list Day) :
  forall e m s l,
    1 <= s ->
    completeAll duration days (Some (mkUserProgress e m s (Some l)))
    = Some (mkUserProgress (e + Z.of_nat (length days))
                           (m + duration * Z.of_nat (length days))
                           (s + dayChanges l days)
                           (Some (List.last days l))).
Proof.
  unfold completeAll.
  induction days as [|d days IH]; intros e m s l Hs.
  - cbn [fold_left length dayChanges List.last]. change (Z.of_nat 0) with 0.
    now rewrite Z.mul_0_r, !Z.add_0_r.
  - cbn [fold_left]. rewrite handleExerciseComplete_row. cbn [default]. unfold id.
    destruct (Z.eqb_spec s 0) as [E|_]; [lia|].
    rewrite IH by (destruct (l =? d); lia).
    cbn [length dayChanges]. rewrite Nat2Z.inj_succ, (Z.eqb_sym d l), last_cons.
    destruct (l =? d); f_equal; f_equal; lia.
Qed.

(** X14: the progress row after exercises completed on the days [day],
    then [days], each completion reading the row that the one before has
    written (or no row at first). The count of exercises grows by one
    and the minutes by the duration with every completion, and the row
    is dated with the last day. The streak is the streak before, raised
    to 1 when it was 0 or when there was no row, plus the number of
    completions made on another day than the one recorded before them:
    the days need not follow one another, so the streak never falls and
    a gap of any length still adds one. *)
Theorem completeAll_progress :
  forall duration day days row,
    0 <= default 0 (day_streak <$> row) ->
    let n := Z.of_nat (length (day :: days)) in
    completeAll duration (day :: days) row
    = Some (mkUserProgress
              (default 0 (exercises_done <$> row) + n)
              (default 0 (minutes_practiced <$> row) + duration * n)
              (Z.max 1 (default 0 (day_streak <$> row))
               + dayChanges (default day (row ≫= last_exercise_at)) (day :: days))
              (Some (List.last days day))) /\
    default 0 (day_streak <$> row)
    <= Z.max 1 (default 0 (day_streak <$> row))
       + dayChanges (default day (row ≫= last_exercise_at)) (day :: days).
Proof.
  intros duration day days row Hs n. split.
  2:{ pose proof (dayChanges_nonneg (day :: days)
                    (default day (row ≫= last_exercise_at))). lia. }
  change (completeAll duration (day :: days) row)
    with (completeAll duration days (Some (handleExerciseComplete day duration row))).
  assert (Hstep : handleExerciseComplete day duration row
                  = mkUserProgress
                      (default 0 (exercises_done <$> row) + 1)
                      (default 0 (minutes_practiced <$> row) + duration)
                      (Z.max 1 (default 0 (day_streak <$> row))
                       + (if default day (row ≫= last_exercise_at) =? day then 0 else 1))
                      (Some day)).
  { destruct row as [[e m s last]|];
      [|unfold handleExerciseComplete, orNumber; cbn; now rewrite Z.eqb_refl].
    rewrite handleExerciseComplete_row. cbn in Hs |- *. unfold id in *.
    destruct (Z.eqb_spec s 0); destruct (_ =? day); f_equal; lia. }
  rewrite Hstep, completeAll_from
    by (destruct (default day (row ≫= last_exercise_at) =? day); lia).
  unfold n. cbn [length dayChanges]. rewrite Nat2Z.inj_succ.
  rewrite (Z.eqb_sym day).
  destruct (default day (row ≫= last_exercise_at) =? day); f_equal; f_equal; lia.
Qed.

Lemma completeAll_progress_witness :
  0 <= default 0 (day_streak <$> Some (mkUserProgress 0 0 0 (Some 100))) /\
  completeAll 5 [101; 101; 110] (Some (mkUserProgress 0 0 0 (Some 100)))
  = Some (mkUserProgress 3 15 3 (Some 110)).
Proof.
  assert (H : 0 <= default 0 (day_streak <$> Some (mkUserProgress 0 0 0 (Some 100))))
    by (cbn; lia).
  split; [exact H|].
  exact (proj1 (completeAll_progress 5 101 [101; 110]
                  (Some (mkUserProgress 0 0 0 (Some 100))) H)).
Defined.

End ExercisesFacts.

(** ** The settings page: profile and privacy across page loads *)

Module SettingsFacts.
Import JsString Json JsonFacts LocalStorage Settings.

Lemma profileFromJS_toJS (p : Profile) : profileFromJS (profileToJS p) = Some p.
Proof. now destruct p. Qed.

Lemma privacyFromJS_toJS (p : Privacy) : privacyFromJS (privacyToJS p) = Some p.
Proof. now destruct p. Qed.

Lemma persist_persist (p p' : Profile) (q q' : Privacy) (ls : Storage) :
  persist p q (persist p' q' ls) = persist p q ls.
Proof.
  unfold persist, setItem. apply map_eq. intros k.
  destruct (decide (k = "zenora_privacy")) as [->|Hk1].
  - now rewrite !lookup_insert_eq.
  - rewrite !(lookup_insert_ne _ "zenora_privacy") by congruence.
    destruct (decide (k = "zenora_profile")) as [->|Hk2].
    + now rewrite !lookup_insert_eq.
    + now rewrite !lookup_insert_ne by congruence.
Qed.

Lemma getItem_persist_profile (p : Profile) (q : Privacy) (ls : Storage) :
  getItem (persist p q ls) "zenora_profile" = Some (stringify (profileToJS p)).
Proof.
  unfold getItem, persist, setItem.
  rewrite lookup_insert_ne by discriminate. apply lookup_insert_eq.
Qed.

Lemma getItem_persist_privacy (p : Profile) (q : Privacy) (ls : Storage) :
  getItem (persist p q ls) "zenora_privacy" = Some (stringify (privacyToJS q)).
Proof. unfold getItem, persist, setItem. apply lookup_insert_eq. Qed.

Lemma parseIfPresent_stringify_object (fields : list (string * JSValue)) :
  parseIfPresent (Some (stringify (JObject fields))) = Normal (Some (JObject fields)).
Proof.
  unfold parseIfPresent. rewrite parse_stringify.
  destruct fields as [|[k v] fields]; reflexivity.
Qed.

(** X15: the settings survive a reload: over a storage that holds what
    the page has persisted for a profile and a privacy choice, mounting
    the page again ends in that profile and that choice, and leaves the
    storage as it was, although the first render writes the defaults
    over both keys before the restored values are written back. *)
Theorem settings_survive_reload :
  forall profile privacy ls,
    mountSettings (persist profile privacy ls)
    = Normal (profile, privacy, persist profile privacy ls).
Proof.
  intros profile privacy ls. unfold mountSettings, hydrate.
  rewrite getItem_persist_profile, getItem_persist_privacy.
  unfold profileToJS at 1, privacyToJS at 1.
  rewrite !parseIfPresent_stringify_object.
  fold (profileToJS profile). fold (privacyToJS privacy).
  cbn [settle]. rewrite profileFromJS_toJS, privacyFromJS_toJS. cbn [bindC].
  now rewrite !persist_persist.
Qed.




End SettingsFacts.

(** ** The journal: tags and entries *)

Module JournalFacts.
Import JsString JsText Journal.

Lemma truthy_nonempty (s : string) : truthy s = true <-> s <> EmptyString.
Proof. destruct s; cbn; split; intros H; congruence. Qed.

Lemma filter_all {A} (P : A -> Prop) `{forall x, Decision (P x)} (l : list A) :
  Forall P l -> filter P l = l.
Proof.
  induction 1 as [|x l Hx _ IH]; [reflexivity|].
  rewrite filter_cons_True by exact Hx. now rewrite IH.
Qed.

Lemma actTag_tags (st : State) (a : TagAction) :
  NoDup (tags st) -> Forall (fun tag => tag <> EmptyString) (tags st) ->
  NoDup (tags (actTag st a)) /\
  Forall (fun tag => tag <> EmptyString) (tags (actTag st a)) /\
  entries (actTag st a) = entries st.
Proof.
  intros Hnd Hne. destruct a as [text| |tag]; cbn [actTag].
  - cbn [tags entries]. now repeat split.
  - unfold addTag. destruct (truthy (newTag st)) eqn:Ht; cbn [andb]; [|now repeat split].
    destruct (bool_decide_reflect (newTag st ∈ tags st)) as [Hin|Hnin];
      cbn [negb]; [now repeat split|].
    cbn [tags entries]. split; [|split; [|reflexivity]].
    + apply NoDup_app. split; [exact Hnd|]. split; [|apply NoDup_singleton].
      intros x Hx Hx'. apply list_elem_of_singleton in Hx'. now subst.
    + apply Forall_app. split; [exact Hne|].
      constructor; [now apply truthy_nonempty | constructor].
  - cbn [removeTag tags entries]. split; [|split; [|reflexivity]].
    + now apply NoDup_filter.
    + rewrite Forall_forall in Hne |- *. intros x Hx.
      apply list_elem_of_filter in Hx. apply Hne, Hx.
Qed.

(** X18: the tags of the entry being written. Whatever the user types,
    adds and removes, in any order, the tags stay distinct and none of
    them is the empty text, and the saved entries are not touched.
    Removing a tag leaves no occurrence of it, and removing the tag
    that has just been added gives back the tags there were before. *)
Theorem tags_distinct :
  (forall actions st,
      NoDup (tags st) -> Forall (fun tag => tag <> EmptyString) (tags st) ->
      NoDup (tags (fold_left actTag actions st)) /\
      Forall (fun tag => tag <> EmptyString) (tags (fold_left actTag actions st)) /\
      entries (fold_left actTag actions st) = entries st) /\
  (forall tag st, tag ∉ tags (removeTag tag st)) /\
  (forall st,
      newTag st <> EmptyString -> newTag st ∉ tags st ->
      tags (addTag st) = tags st ++ [newTag st] /\
      newTag (addTag st) = EmptyString /\
      tags (removeTag (newTag st) (addTag st)) = tags st).
Proof.
  split; [|split].
  - induction actions as [|a actions IH]; intros st Hnd Hne; [now repeat split|].
    cbn [fold_left]. destruct (actTag_tags st a Hnd Hne) as [Hnd' [Hne' Hent]].
    destruct (IH (actTag st a) Hnd' Hne') as [H1 [H2 H3]].
    repeat split; [exact H1 | exact H2 | congruence].
  - intros tag st. cbn [removeTag tags]. intros Hin.
    apply list_elem_of_filter in Hin. destruct Hin as [Hne _]. now apply Hne.
  - intros st Hne Hnin. unfold addTag.
    apply truthy_nonempty in Hne. rewrite Hne.
    rewrite (bool_decide_eq_false_2 _ Hnin). cbn [andb negb tags newTag removeTag].
    split; [reflexivity|]. split; [reflexivity|].
    rewrite filter_app, filter_cons_False, filter_nil, app_nil_r by (intros H; now apply H).
    apply filter_all. rewrite Forall_forall. intros x Hx ->. now apply Hnin.
Qed.

Lemma tags_distinct_witness :
  NoDup (tags (mkState true "Day one" "text" "good" [] "calm" [])) /\
  Forall (fun tag => tag <> EmptyString)
         (tags (mkState true "Day one" "text" "good" [] "calm" [])) /\
  NoDup (tags (fold_left actTag [AddTag; TypeTag "calm"; AddTag; TypeTag "walk"; AddTag]
                 (mkState true "Day one" "text" "good" [] "calm" []))).
Proof.
  assert (Hnd : NoDup (tags (mkState true "Day one" "text" "good" [] "calm" [])))
    by apply NoDup_nil_2.
  assert (Hne : Forall (fun tag => tag <> EmptyString)
                  (tags (mkState true "Day one" "text" "good" [] "calm" [])))
    by apply List.Forall_nil.
  split; [exact Hnd|]. split; [exact Hne|].
  exact (proj1 (proj1 tags_distinct
                  [AddTag; TypeTag "calm"; AddTag; TypeTag "walk"; AddTag] _ Hnd Hne)).
Defined.

(** X19: saving and deleting entries. An entry whose content is blank,
    or for which no mood is chosen, is not saved: the state stays as it
    is. Otherwise the new entry comes first, before the entries there
    were, with the content as typed, the title typed or, when none was
    typed, "Untitled Entry", and the tags chosen; the form is emptied,
    except the text typed for a next tag. Deleting by an id leaves no
    entry with that id and keeps all others in their order; so deleting
    the entry just saved gives back the entries there were when no
    older entry has its id, and takes an older entry with the same id
    along when there is one. *)
Theorem entries_save_delete :
  (forall now created st,
      isBlank (content st) = true \/ selectedMood st = EmptyString ->
      handleSaveEntry now created st = st) /\
  (forall now created st,
      isBlank (content st) = false -> selectedMood st <> EmptyString ->
      handleSaveEntry now created st
      = mkState false EmptyString EmptyString EmptyString [] (newTag st)
          (Entry.mk now (if truthy (title st) then title st else "Untitled Entry")
                    (content st) (selectedMood st) (tags st) created
           :: entries st)) /\
  (forall id st,
      entries (deleteEntry id st)
      = filter (fun entry => Entry.id entry <> id) (entries st) /\
      Forall (fun entry => Entry.id entry <> id) (entries (deleteEntry id st))) /\
  (forall now created st,
      isBlank (content st) = false -> selectedMood st <> EmptyString ->
      (Forall (fun entry => Entry.id entry <> now) (entries st) ->
       entries (deleteEntry now (handleSaveEntry now created st)) = entries st) /\
      (forall older,
          older ∈ entries st -> Entry.id older = now ->
          older ∉ entries (deleteEntry now (handleSaveEntry now created st)))).
Proof.
  assert (Hsave : forall now created st,
      isBlank (content st) = false -> selectedMood st <> EmptyString ->
      handleSaveEntry now created st
      = mkState false EmptyString EmptyString EmptyString [] (newTag st)
          (Entry.mk now (if truthy (title st) then title st else "Untitled Entry")
                    (content st) (selectedMood st) (tags st) created
           :: entries st)).
  { intros now created st Hc Hm. unfold handleSaveEntry.
    apply truthy_nonempty in Hm. rewrite Hc, Hm. reflexivity. }
  split; [|split; [exact Hsave|split]].
  - intros now created st [Hc | Hm]; unfold handleSaveEntry.
    + now rewrite Hc.
    + rewrite Hm. now rewrite orb_true_r.
  - intros id st. split; [reflexivity|]. cbn [deleteEntry entries].
    rewrite Forall_forall. intros e He. now apply list_elem_of_filter in He.
  - intros now created st Hc Hm. rewrite (Hsave now created st Hc Hm).
    cbn [deleteEntry entries]. split.
    + intros Hfresh. rewrite filter_cons_False by (cbn; intros H; now apply H).
      now apply filter_all.
    + intros older _ Hid Hin. apply list_elem_of_filter in Hin. now destruct Hin.
Qed.

Lemma entries_save_delete_witness :
  isBlank (content (mkState true EmptyString "Walked home." "good" ["calm"] "x" [])) = false /\
  selectedMood (mkState true EmptyString "Walked home." "good" ["calm"] "x" [])
  <> EmptyString /\
  handleSaveEntry 1762160400000 1762160400000
    (mkState true EmptyString "Walked home." "good" ["calm"] "x" [])
  = mkState false EmptyString EmptyString EmptyString [] "x"
      [Entry.mk 1762160400000 "Untitled Entry" "Walked home." "good" ["calm"]
                1762160400000].
Proof.
  assert (Hc : isBlank (content (mkState true EmptyString "Walked home." "good"
                                   ["calm"] "x" [])) = false) by reflexivity.
  assert (Hm : selectedMood (mkState true EmptyString "Walked home." "good"
                               ["calm"] "x" []) <> EmptyString) by discriminate.
  split; [exact Hc|]. split; [exact Hm|].
  exact (proj1 (proj2 entries_save_delete) 1762160400000 1762160400000 _ Hc Hm).
Defined.

End JournalFacts.

(** ** Trimming *)

Module TrimFacts.
Import JsString JsText.

(** A byte from 128 to 191 begins no white space character. *)
Lemma continuation_not_white (c : ascii) (r : string) :
  (128 <= N_of_ascii c <= 191)%N -> startsWhite (String c r) = false.
Proof.
  intros Hc. cbn [startsWhite]. unfold isWhite1, isWhite2, isWhite3. cbv zeta.
  assert (H1 : (N_of_ascii c <=? 13)%N = false) by (apply N.leb_gt; lia).
  assert (H2 : (N_of_ascii c =? 32)%N = false) by (apply N.eqb_neq; lia).
  assert (H3 : (N_of_ascii c =? 194)%N = false) by (apply N.eqb_neq; lia).
  assert (H4 : (N_of_ascii c =? 225)%N = false) by (apply N.eqb_neq; lia).
  assert (H5 : (N_of_ascii c =? 226)%N = false) by (apply N.eqb_neq; lia).
  assert (H6 : (N_of_ascii c =? 227)%N = false) by (apply N.eqb_neq; lia).
  assert (H7 : (N_of_ascii c =? 239)%N = false) by (apply N.eqb_neq; lia).
  rewrite H1, H2, H3, andb_false_r. cbn [orb andb].
  destruct r as [|b [|d r]]; [reflexivity..|].
  now rewrite H4, H5, H6, H7.
Qed.

Lemma isWhite2_bytes (a b : ascii) :
  isWhite2 a b = true -> (128 <= N_of_ascii b <= 191)%N.
Proof.
  unfold isWhite2. rewrite andb_true_iff, !N.eqb_eq. lia.
Qed.

Lemma isWhite3_bytes (a b c : ascii) :
  isWhite3 a b c = true ->
  (128 <= N_of_ascii b <= 191)%N /\ (128 <= N_of_ascii c <= 191)%N.
Proof.
  unfold isWhite3. cbv zeta.
  rewrite !orb_true_iff, !andb_true_iff, !orb_true_iff, !andb_true_iff,
    !N.eqb_eq, !N.leb_le.
  lia.
Qed.

Lemma trimStart_fixed (s : string) : startsWhite s = false -> trimStart s = s.
Proof.
  destruct s as [|a [|b [|c r]]]; cbn [startsWhite trimStart]; intros H;
    [reflexivity|..];
    (destruct (isWhite1 a); [discriminate H|]); cbn [orb] in H; [reflexivity|..];
    (destruct (isWhite2 a b); [discriminate H|]); cbn [orb] in H; [reflexivity|].
  now rewrite H.
Qed.

Lemma startsWhite_trimStart_le (n : nat) :
  forall s, (String.length s <= n)%nat -> startsWhite (trimStart s) = false.
Proof.
  induction n as [|n IH]; intros s Hlen.
  - destruct s; [reflexivity | cbn in Hlen; lia].
  - destruct s as [|a rest]; [reflexivity|]. cbn [String.length] in Hlen.
    cbn [trimStart]. destruct (isWhite1 a) eqn:E1; [apply IH; lia|].
    destruct rest as [|b rest2]; [cbn [startsWhite]; now rewrite E1|].
    cbn [String.length] in Hlen.
    destruct (isWhite2 a b) eqn:E2; [apply IH; lia|].
    destruct rest2 as [|c rest3]; [cbn [startsWhite]; now rewrite E1, E2|].
    cbn [String.length] in Hlen.
    destruct (isWhite3 a b c) eqn:E3; [apply IH; lia|].
    cbn [startsWhite]. now rewrite E1, E2, E3.
Qed.

Lemma startsWhite_trimStart (s : string) : startsWhite (trimStart s) = false.
Proof. apply (startsWhite_trimStart_le (String.length s)). lia. Qed.

Lemma trimStart_idempotent (s : string) : trimStart (trimStart s) = trimStart s.
Proof. apply trimStart_fixed, startsWhite_trimStart. Qed.

Lemma trimEnd_cons (a : ascii) (rest : string) :
  trimEnd (String a rest)
  = if isBlank (String a rest) then EmptyString else String a (trimEnd rest).
Proof. reflexivity. Qed.

Lemma not_blank (a : ascii) (r : string) :
  startsWhite (String a r) = false -> isBlank (String a r) = false.
Proof. intros H. unfold isBlank. now rewrite (trimStart_fixed _ H). Qed.

(** What begins with no white space still does after [trimEnd]. *)
Lemma startsWhite_trimEnd (t : string) :
  startsWhite t = false -> startsWhite (trimEnd t) = false.
Proof.
  destruct t as [|a rest]; [reflexivity|]. intros H.
  rewrite trimEnd_cons. destruct (isBlank (String a rest)); [reflexivity|].
  cbn [startsWhite] in H |- *.
  apply orb_false_iff in H. destruct H as [E1 H]. rewrite E1. cbn [orb].
  destruct rest as [|b rest2]; [reflexivity|]. rewrite trimEnd_cons.
  destruct (isBlank (String b rest2)); [reflexivity|].
  apply orb_false_iff in H. destruct H as [E2 H]. rewrite E2. cbn [orb].
  destruct rest2 as [|c rest3]; [reflexivity|]. rewrite trimEnd_cons.
  destruct (isBlank (String c rest3)); [reflexivity|]. exact H.
Qed.

Lemma isBlank_trimEnd_le (n : nat) :
  forall s, (String.length s <= n)%nat -> isBlank (trimEnd s) = isBlank s.
Proof.
  induction n as [|n IH]; intros s Hlen.
  - destruct s; [reflexivity | cbn in Hlen; lia].
  - destruct s as [|a rest]; [reflexivity|]. cbn [String.length] in Hlen.
    rewrite trimEnd_cons. destruct (isBlank (String a rest)) eqn:Hb; [reflexivity|].
    destruct (startsWhite (String a rest)) eqn:Hsw.
    2:{ pose proof (startsWhite_trimEnd _ Hsw) as H.
        rewrite trimEnd_cons, Hb in H. now apply not_blank. }
    unfold isBlank in Hb |- *. cbn [startsWhite] in Hsw.
    cbn [trimStart] in Hb |- *.
    destruct (isWhite1 a) eqn:E1.
    { fold (isBlank (trimEnd rest)). rewrite IH by lia. exact Hb. }
    cbn [orb] in Hsw.
    destruct rest as [|b rest2]; [discriminate Hsw|]. cbn [String.length] in Hlen.
    destruct (isWhite2 a b) eqn:E2.
    { pose proof (isWhite2_bytes a b E2) as Hbyte.
      rewrite trimEnd_cons, (not_blank b rest2 (continuation_not_white b rest2 Hbyte)).
      rewrite E2. fold (isBlank (trimEnd rest2)). rewrite IH by lia. exact Hb. }
    cbn [orb] in Hsw.
    destruct rest2 as [|c rest3]; [discriminate Hsw|]. cbn [String.length] in Hlen.
    rewrite Hsw in Hb.
    destruct (isWhite3_bytes a b c Hsw) as [Hbyte Hbyte'].
    rewrite trimEnd_cons,
      (not_blank b (String c rest3) (continuation_not_white b _ Hbyte)).
    rewrite E2.
    rewrite trimEnd_cons, (not_blank c rest3 (continuation_not_white c _ Hbyte')).
    rewrite Hsw. fold (isBlank (trimEnd rest3)). rewrite IH by lia. exact Hb.
Qed.

Lemma isBlank_trimEnd (s : string) : isBlank (trimEnd s) = isBlank s.
Proof. apply (isBlank_trimEnd_le (String.length s)). lia. Qed.

Lemma trimEnd_idempotent (s : string) : trimEnd (trimEnd s) = trimEnd s.
Proof.
  induction s as [|a rest IH]; [reflexivity|].
  pose proof (isBlank_trimEnd (String a rest)) as Hb.
  rewrite trimEnd_cons in Hb |- *.
  destruct (isBlank (String a rest)); [reflexivity|].
  rewrite trimEnd_cons, Hb. now rewrite IH.
Qed.

Lemma trim_idempotent (s : string) : trim (trim s) = trim s.
Proof.
  unfold trim.
  rewrite (trimStart_fixed (trimEnd (trimStart s)))
    by apply startsWhite_trimEnd, startsWhite_trimStart.
  apply trimEnd_idempotent.
Qed.

Lemma trim_blank (s : string) : isBlank s = true -> trim s = EmptyString.
Proof.
  unfold isBlank, trim. destruct (trimStart s); [reflexivity | discriminate].
Qed.

Lemma truthy_trim (s : string) : truthy (trim s) = negb (isBlank s).
Proof.
  pose proof (isBlank_trimEnd (trimStart s)) as H. unfold isBlank in H |- *.
  rewrite (trimStart_fixed (trimEnd (trimStart s))) in H
    by apply startsWhite_trimEnd, startsWhite_trimStart.
  rewrite trimStart_idempotent in H. unfold trim.
  destruct (truthy (trimEnd (trimStart s))), (truthy (trimStart s));
    cbn in H |- *; congruence.
Qed.

End TrimFacts.

(** ** The motivation board of the exercises screen *)

Module ExercisesBoardFacts.
Import JsString JsText Exercises IndexFacts TrimFacts.

Lemma addMotivation_cases (motivations : list string) (text : string) :
  addMotivation (motivations, text)
  = if isBlank text then (motivations, text)
    else (motivations ++ [trim text], EmptyString).
Proof.
  unfold addMotivation. rewrite truthy_trim. now destruct (isBlank text).
Qed.

Lemma act_trimmed (st : list string * string) (a : BoardAction) :
  Forall (fun m => m <> EmptyString /\ trim m = m) (fst st) ->
  Forall (fun m => m <> EmptyString /\ trim m = m) (fst (act st a)).
Proof.
  intros H. destruct st as [motivations text]. destruct a as [typed| |index].
  - exact H.
  - cbn [act]. rewrite addMotivation_cases.
    destruct (isBlank text) eqn:Hb; [exact H|]. cbn [fst] in H |- *.
    apply Forall_app. split; [exact H|]. constructor; [|constructor].
    split; [|apply trim_idempotent].
    pose proof (truthy_trim text) as Ht. rewrite Hb in Ht.
    intros E. rewrite E in Ht. discriminate Ht.
  - cbn [act fst snd] in H |- *. unfold deleteMotivation.
    rewrite filterIndex_delete0. rewrite Forall_forall in H |- *.
    intros m Hm. apply H. eapply elem_of_sublist; [exact Hm | apply sublist_delete].
Qed.

(** X20: on the board of the exercises screen every motivation is a
    text that is not empty and that begins and ends with no white space
    (trimming it changes nothing): this holds for the three motivations
    the board starts with and stays true whatever the user types, adds
    and deletes, in any order. A text that is white space throughout is
    not added; any other is added trimmed, last, the field is emptied,
    and deleting at the last index then gives back the board as it was.
    The board of the chat screen, in contrast, adds the text as it was
    typed. *)
Theorem motivations_trimmed :
  (forall actions st,
      Forall (fun m => m <> EmptyString /\ trim m = m) (fst st) ->
      Forall (fun m => m <> EmptyString /\ trim m = m) (fst (fold_left act actions st))) /\
  Forall (fun m => m <> EmptyString /\ trim m = m) initialMotivations /\
  (forall motivations text,
      isBlank text = true -> addMotivation (motivations, text) = (motivations, text)) /\
  (forall motivations text,
      isBlank text = false ->
      addMotivation (motivations, text) = (motivations ++ [trim text], EmptyString) /\
      deleteMotivation (length motivations) (motivations ++ [trim text]) = motivations) /\
  (forall moodData text,
      isBlank text = false ->
      Zenora.motivation (fst (ZenoraBoard.addMotivation (moodData, text)))
      = Zenora.motivation moodData ++ [text]).
Proof.
  split; [|split; [|split; [|split]]].
  - induction actions as [|a actions IH]; intros st H; [exact H|].
    cbn [fold_left]. apply IH, act_trimmed, H.
  - repeat constructor; try discriminate; reflexivity.
  - intros motivations text Hb. now rewrite addMotivation_cases, Hb.
  - intros motivations text Hb. rewrite addMotivation_cases, Hb.
    split; [reflexivity|]. unfold deleteMotivation.
    rewrite filterIndex_delete0. apply delete_snoc.
  - intros moodData text Hb. unfold ZenoraBoard.addMotivation. now rewrite Hb.
Qed.

Lemma motivations_trimmed_witness :
  Forall (fun m => m <> EmptyString /\ trim m = m) (fst (initialMotivations, EmptyString)) /\
  isBlank "  One step at a time.  " = false /\
  fst (fold_left act [Type_ "  One step at a time.  "; Add; Delete 0; Type_ "   "; Add]
         (initialMotivations, EmptyString))
  = ["Every breath counts."; "You’ve got this!"; "One step at a time."] /\
  Forall (fun m => m <> EmptyString /\ trim m = m)
    (fst (fold_left act [Type_ "  One step at a time.  "; Add; Delete 0; Type_ "   "; Add]
            (initialMotivations, EmptyString))).
Proof.
  assert (H : Forall (fun m => m <> EmptyString /\ trim m = m)
                (fst (initialMotivations, EmptyString)))
    by exact (proj1 (proj2 motivations_trimmed)).
  split; [exact H|]. split; [reflexivity|]. split; [reflexivity|].
  exact (proj1 motivations_trimmed
           [Type_ "  One step at a time.  "; Add; Delete 0; Type_ "   "; Add]
           (initialMotivations, EmptyString) H).
Defined.

End ExercisesBoardFacts.

(** ** The transcript of the chat *)

Module ZenoraChatFacts.
Import JsString JsText Json Zenora ZenoraChat TrimFacts InsightsFacts.

Lemma sendMessage_sent (c : Clock) (text : string) (r : RemoteReply)
    (messages : list Message) :
  isBlank text = false ->
  exists answer,
    sendMessage c text false r messages
    = messages ++ [ mkMessage (numberText (sentNow c)) user (trim text) (sentDate c);
                    mkMessage (numberText (repliedNow c + 1)) assistant answer
                              (repliedDate c) ].
Proof.
  intros Hb. unfold sendMessage. rewrite Hb. cbn [orb].
  eexists. rewrite <- app_assoc. reflexivity.
Qed.

Lemma exchanges_snoc (n : nat) : exchanges n ++ [user; assistant] = exchanges (S n).
Proof. induction n as [|n IH]; [reflexivity|]. cbn [exchanges app]. now rewrite IH. Qed.

Lemma chat_invariant (sends : list Send) :
  forall messages n,
    role <$> messages = assistant :: exchanges n ->
    Forall (fun m => role m = user -> content m <> EmptyString /\ trim (content m) = content m)
           messages ->
    let after := chat sends messages in
    role <$> after
    = assistant
      :: exchanges (n + length (filter (fun s => isBlank (input s) = false) sends)) /\
    Forall (fun m => role m = user -> content m <> EmptyString /\ trim (content m) = content m)
           after /\
    messages `prefix_of` after.
Proof.
  induction sends as [|s sends IH]; intros messages n Hroles Htrim; cbv zeta.
  - cbn [chat fold_left filter list_filter length]. rewrite Nat.add_0_r.
    repeat split; [exact Hroles | exact Htrim | reflexivity].
  - change (chat (s :: sends) messages)
      with (chat sends (sendMessage (clock s) (input s) false (reply s) messages)).
    destruct (isBlank (input s)) eqn:Hb.
    + rewrite filter_cons_False by (rewrite Hb; discriminate).
      unfold sendMessage. rewrite Hb. cbn [orb]. now apply IH.
    + rewrite filter_cons_True by exact Hb.
      destruct (sendMessage_sent (clock s) (input s) (reply s) messages Hb)
        as [answer Hsent].
      rewrite Hsent.
      destruct (IH (messages ++ [ mkMessage (numberText (sentNow (clock s))) user
                                     (trim (input s)) (sentDate (clock s));
                                  mkMessage (numberText (repliedNow (clock s) + 1))
                                     assistant answer (repliedDate (clock s)) ])
                   (S n)) as [H1 [H2 H3]].
      * rewrite fmap_app, Hroles. cbn [fmap list_fmap role app].
        f_equal. apply exchanges_snoc.
      * apply Forall_app. split; [exact Htrim|].
        constructor; [|constructor; [discriminate | constructor]].
        intros _. cbn [content]. split; [|apply trim_idempotent].
        pose proof (truthy_trim (input s)) as Ht. rewrite Hb in Ht.
        intros E. rewrite E in Ht. discriminate Ht.
      * cbv zeta in H1. cbn [length]. rewrite Nat.add_succ_r.
        split; [exact H1|]. split; [exact H2|].
        etransitivity; [|exact H3]. now apply prefix_app_r.
Qed.

(** X21: the transcript of the chat. While a reply is awaited, and for
    an input that is white space throughout, [handleSendMessage] adds
    nothing. Otherwise it adds exactly two messages at the end: the
    user's, whose content is the trimmed input, then the assistant's,
    which is the reply of the service or, on an error, the apology.
    Hence, from the greeting on and through any number of calls made one
    after the other, nothing is ever removed or reordered, the roles
    alternate (assistant, then user and assistant for every input that
    was not blank), and the content of every user message is not empty
    and has no white space around it. The context sent with a request
    holds the last five messages before the one being sent, or all of
    them when there are fewer. *)
Theorem chat_transcript :
  (forall c text r messages,
      sendMessage c text true r messages = messages /\
      (isBlank text = true -> sendMessage c text false r messages = messages) /\
      (isBlank text = false ->
       exists answer,
         sendMessage c text false r messages
         = messages ++ [ mkMessage (numberText (sentNow c)) user (trim text) (sentDate c);
                         mkMessage (numberText (repliedNow c + 1)) assistant answer
                                   (repliedDate c) ] /\
         answer = match r with
                  | Reply response _ => response
                  | ReplyError => connectionTrouble
                  end)) /\
  (forall mounted sends,
      let after := chat sends (initialMessages mounted) in
      role <$> after
      = assistant :: exchanges (length (filter (fun s => isBlank (input s) = false) sends)) /\
      Forall (fun m => role m = user ->
                       content m <> EmptyString /\ trim (content m) = content m) after /\
      initialMessages mounted `prefix_of` after) /\
  (forall messages,
      (length (context messages) <= 5)%nat /\
      exists older,
        (fun m => (role m, content m)) <$> messages = older ++ context messages /\
        (older <> [] -> length (context messages) = 5%nat)).
Proof.
  split; [|split].
  - intros c text r messages. split; [|split].
    + unfold sendMessage. now rewrite orb_true_r.
    + intros Hb. unfold sendMessage. now rewrite Hb.
    + intros Hb. unfold sendMessage. rewrite Hb. cbn [orb].
      eexists. split; [|reflexivity]. now rewrite <- app_assoc.
  - intros mounted sends.
    apply (chat_invariant sends (initialMessages mounted) 0); [reflexivity|].
    constructor; [discriminate | constructor].
  - intros messages. unfold context. rewrite length_fmap.
    split; [apply length_sliceLast|].
    exists ((fun m => (role m, content m)) <$> take (length messages - 5) messages).
    split.
    + unfold Insights.sliceLast. rewrite <- fmap_app. now rewrite take_drop.
    + intros Hne. unfold Insights.sliceLast. rewrite length_drop.
      destruct (le_lt_dec (length messages) 5) as [Hle|Hgt]; [|lia].
      exfalso. apply Hne. replace (length messages - 5)%nat with 0%nat by lia.
      reflexivity.
Qed.

Lemma chat_transcript_witness :
  isBlank "  I feel calm today " = false /\
  sendMessage (mkClock 1762160400000 1762160400000 1762160401500 1762160401500)
    "  I feel calm today " false ReplyError (initialMessages 1762160000000)
  = initialMessages 1762160000000
    ++ [ mkMessage "1762160400000" user "I feel calm today" 1762160400000;
         mkMessage "1762160401501" assistant connectionTrouble 1762160401500 ].
Proof.
  assert (Hb : isBlank "  I feel calm today " = false) by reflexivity.
  split; [exact Hb|].
  destruct (proj2 (proj2 (proj1 chat_transcript
              (mkClock 1762160400000 1762160400000 1762160401500 1762160401500)
              "  I feel calm today " ReplyError (initialMessages 1762160000000))) Hb)
    as [answer [Hsent Hanswer]].
  rewrite Hsent, Hanswer. reflexivity.
Defined.

End ZenoraChatFacts.

(** ** The name in the greeting of the dashboard *)

Module DashboardGreetingFacts.
Import JsString JsStringFacts JsText DashboardGreeting.

Lemma includes_space_cons (c : ascii) (s : string) :
  includes (String c s) " " = (N_of_ascii c =? 32)%N || includes s " ".
Proof.
  cbn [includes startsWith]. f_equal.
  destruct (Ascii.eqb_spec " " c) as [<-|Hne]; [now destruct s|].
  symmetry. apply N.eqb_neq. intros E. apply Hne.
  rewrite <- (ascii_N_embedding c), E. reflexivity.
Qed.

Lemma splitSpace_head (s : string) :
  exists seg segs, splitSpace s = seg :: segs /\ includes seg " " = false.
Proof.
  induction s as [|c s IH]; [now exists EmptyString, []|].
  cbn [splitSpace]. destruct (N_of_ascii c =? 32)%N eqn:Hc.
  - now exists EmptyString, (splitSpace s).
  - destruct IH as [seg [segs [-> Hseg]]]. exists (String c seg), segs.
    split; [reflexivity|]. now rewrite includes_space_cons, Hc, Hseg.
Qed.

Lemma splitSpace_word (first : string) :
  includes first " " = false ->
  splitSpace first = [first] /\
  forall rest, splitSpace (first +:+ " " +:+ rest) = first :: splitSpace rest.
Proof.
  induction first as [|c first IH]; intros Hno.
  - split; reflexivity.
  - rewrite includes_space_cons in Hno. apply orb_false_iff in Hno.
    destruct Hno as [Hc Hno]. destruct (IH Hno) as [H1 H2]. split.
    + cbn [splitSpace]. now rewrite Hc, H1.
    + intros rest. change (String c first +:+ " " +:+ rest)
        with (String c (first +:+ " " +:+ rest)).
      cbn [splitSpace]. now rewrite Hc, H2.
Qed.

(** X22: the name in the greeting is never empty and never holds a
    space. It is the part of the full name before its first space, and
    "Friend" when there is no full name, when the full name is empty and
    when it begins with a space. *)
Theorem userName_first_word :
  (forall full_name,
      userName full_name <> EmptyString /\ includes (userName full_name) " " = false) /\
  (forall first,
      first <> EmptyString -> includes first " " = false ->
      userName (Some first) = first /\
      forall rest, userName (Some (first +:+ " " +:+ rest)) = first) /\
  userName None = "Friend" /\
  userName (Some EmptyString) = "Friend" /\
  (forall rest, userName (Some (" " +:+ rest)) = "Friend").
Proof.
  split; [|split; [|split; [|split]]]; try reflexivity.
  - intros [n|]; [|split; [discriminate | reflexivity]].
    unfold userName. cbn [mbind option_bind].
    destruct (splitSpace_head n) as [seg [segs [-> Hseg]]]. cbn [head default].
    unfold orElse. destruct seg as [|c seg]; cbn [truthy].
    + split; [discriminate | reflexivity].
    + split; [discriminate | exact Hseg].
  - intros first Hne Hno. destruct (splitSpace_word first Hno) as [H1 H2].
    unfold userName. cbn [mbind option_bind]. split.
    + rewrite H1. cbn [head default]. unfold orElse.
      destruct first; [congruence | reflexivity].
    + intros rest. rewrite H2. cbn [head default]. unfold orElse.
      destruct first; [congruence | reflexivity].
Qed.

Lemma userName_first_word_witness :
  ("Asha" : string) <> EmptyString /\ includes "Asha" " " = false /\
  userName (Some "Asha Rao") = "Asha".
Proof.
  assert (Hne : ("Asha" : string) <> EmptyString) by discriminate.
  assert (Hno : includes "Asha" " " = false) by reflexivity.
  split; [exact Hne|]. split; [exact Hno|].
  exact (proj2 (proj1 (proj2 userName_first_word) "Asha" Hne Hno) "Rao").
Defined.

End DashboardGreetingFacts.
